(** * Control plane of the bor node: mining controller, checkpoint whitelist
      service and service lifecycle.

    The development follows the Go sources:
    - [eth/backend.go]      : [Ethereum.StartMining], [Ethereum.Etherbase],
                              [Ethereum.startCheckpointWhitelistService],
                              [Ethereum.handleWhitelistCheckpoint], [Ethereum.Stop];
    - [miner/miner_test.go] : the scenarios that drive the miner's control loop.

    Go values are embedded as follows: [int], [uint32], [uint64], [*big.Int] and
    [time.Duration] (nanoseconds) are [Z]; a [common.Address] or [common.Hash]
    is the number its bytes spell, so the zero value [common.Address{}] is [0];
    a nil-able pointer or interface is an [option]; a Go [error] is an
    [option error]. *)

From Stdlib Require Import String List Bool ZArith Lia.
Import ListNotations.

Set Implicit Arguments.

(* ================================================================== *)
(** * The miner's control loop *)
(* ================================================================== *)

Module Miner.

(** [MiningState] of the controller. *)
Inductive MiningState := Stopped | Running.

(** What the control loop reads, one at a time: the caller's commands and
    the downloader's events ([downloader.StartEvent], [downloader.FailedEvent],
    [downloader.DoneEvent] in [miner_test.go]). *)
Inductive Input :=
| Start
| Stop
| Close
| SyncStarted
| SyncFailed
| SyncCompleted.

Record Controller := mkController {
  state      : MiningState;
  everSynced : bool;   (* SyncStickyFlag *)
  intent     : bool;   (* DesiredMiningIntent *)
  syncing    : bool;   (* a sync is in progress *)
  closed     : bool    (* Close() has been processed *)
}.

(** [miner.New]: the tests observe [Mining() == false] on a fresh miner
    ([TestStartWhileDownload], [miner_test.go:162]). *)
Definition New : Controller :=
  {| state := Stopped; everSynced := false; intent := false;
     syncing := false; closed := false |}.

Definition Mining (c : Controller) : bool :=
  match state c with Running => true | Stopped => false end.

Definition set_state (st : MiningState) (c : Controller) : Controller :=
  {| state := st; everSynced := everSynced c; intent := intent c;
     syncing := syncing c; closed := closed c |}.

Definition set_intent (b : bool) (c : Controller) : Controller :=
  {| state := state c; everSynced := everSynced c; intent := b;
     syncing := syncing c; closed := closed c |}.

Definition set_syncing (b : bool) (c : Controller) : Controller :=
  {| state := state c; everSynced := everSynced c; intent := intent c;
     syncing := b; closed := closed c |}.

Definition set_everSynced (b : bool) (c : Controller) : Controller :=
  {| state := state c; everSynced := b; intent := intent c;
     syncing := syncing c; closed := closed c |}.

Definition set_closed (b : bool) (c : Controller) : Controller :=
  {| state := state c; everSynced := everSynced c; intent := intent c;
     syncing := syncing c; closed := b |}.

(** The two readings the specification gives of a [SyncFailed] that arrives
    before the first [SyncCompleted].

    [failed_stops] is the sentence of the transition policy ("if
    [everSynced == false], move to [Stopped]").

    [failed_resumes] is the scenario of the testable properties
    ("[Start()] -> [SyncStarted] -> [Mining()==false] -> [SyncFailed] ->
    [Mining()==true]"), which is what [TestMinerDownloaderFirstFails]
    asserts at [miner_test.go:95-96]: the sync is over, and mining resumes
    when the operator asked for it, as on [SyncCompleted]. *)
Definition failed_stops (c : Controller) : Controller :=
  set_state Stopped (set_syncing false c).

Definition failed_resumes (c : Controller) : Controller :=
  let c := set_syncing false c in
  if intent c then set_state Running c else c.

(** Modelled from the spec: the control loop of the miner ([Miner.update] in
    [miner/miner.go]) is not among the sources, only its tests are.  One
    transition per input, following the transition policy of the
    specification's section on the MiningController; the treatment of a
    [SyncFailed] before the first [SyncCompleted] is the parameter
    [onFailed]. *)
Definition step (onFailed : Controller -> Controller)
           (c : Controller) (i : Input) : Controller :=
  if closed c then c   (* Close() is terminal: nothing is accepted after it *)
  else
    match i with
    | Start =>
        if everSynced c || negb (syncing c)
        then set_state Running (set_intent true c)
        else set_intent true c
    | Stop => set_state Stopped (set_intent false c)
    | SyncStarted =>
        if everSynced c then c
        else set_state Stopped (set_syncing true c)
    | SyncCompleted =>
        let c := set_syncing false (set_everSynced true c) in
        if intent c then set_state Running c else c
    | SyncFailed =>
        if everSynced c then c else onFailed c
    | Close => set_closed true (set_state Stopped c)
    end.

(** Modelled from the spec: the miner's control loop, with the reading of
    [SyncFailed] that the repository's tests assert. *)
Definition update : Controller -> Input -> Controller := step failed_resumes.

(** Modelled from the spec: the same loop with the transition policy's
    sentence on [SyncFailed] taken literally. *)
Definition update_literal : Controller -> Input -> Controller := step failed_stops.

(** The loop processes its inputs strictly in delivery order. *)
Definition run (c : Controller) (l : list Input) : Controller :=
  fold_left update l c.

Definition run_literal (c : Controller) (l : list Input) : Controller :=
  fold_left update_literal l c.

(** ** The scenarios of [miner_test.go]

    A test posts inputs and, through [waitForMiningState], polls [Mining()]
    until it has the wanted value. *)
Inductive TestStep :=
| Do (i : Input)
| waitForMiningState (mining : bool).

Fixpoint passes (upd : Controller -> Input -> Controller)
         (c : Controller) (script : list TestStep) : bool :=
  match script with
  | [] => true
  | Do i :: rest => passes upd (upd c i) rest
  | waitForMiningState b :: rest => Bool.eqb (Mining c) b && passes upd c rest
  end.

Definition TestMiner : list TestStep :=
  [ Do Start; waitForMiningState true;
    Do SyncStarted; waitForMiningState false;
    Do SyncCompleted; waitForMiningState true;
    Do SyncStarted; waitForMiningState true;
    Do SyncFailed; waitForMiningState true ].

Definition TestMinerDownloaderFirstFails : list TestStep :=
  [ Do Start; waitForMiningState true;
    Do SyncStarted; waitForMiningState false;
    Do SyncFailed; waitForMiningState true;
    Do SyncStarted; waitForMiningState false;
    Do SyncCompleted; waitForMiningState true;
    Do SyncStarted; waitForMiningState true;
    Do SyncFailed; waitForMiningState true ].

Definition TestMinerStartStopAfterDownloaderEvents : list TestStep :=
  [ Do Start; waitForMiningState true;
    Do SyncStarted; waitForMiningState false;
    Do SyncCompleted; waitForMiningState true;
    Do Stop; waitForMiningState false;
    Do Start; waitForMiningState true;
    Do Stop; waitForMiningState false ].

Definition TestStartWhileDownload : list TestStep :=
  [ waitForMiningState false;
    Do Start; waitForMiningState true;
    Do SyncStarted; waitForMiningState false;
    Do Start; waitForMiningState false ].

Definition TestStartStopMiner : list TestStep :=
  [ waitForMiningState false;
    Do Start; waitForMiningState true;
    Do Stop; waitForMiningState false ].

Definition TestCloseMiner : list TestStep :=
  [ waitForMiningState false;
    Do Start; Do Start; waitForMiningState true;
    Do Close; waitForMiningState false ].

Definition TestMinerSetEtherbase : list TestStep :=
  [ Do Start; waitForMiningState true;
    Do SyncStarted; waitForMiningState false;
    Do Start;
    Do SyncCompleted; waitForMiningState true ].

Definition test_suite : list (list TestStep) :=
  [ TestMiner; TestMinerDownloaderFirstFails;
    TestMinerStartStopAfterDownloaderEvents; TestStartWhileDownload;
    TestStartStopMiner; TestCloseMiner; TestMinerSetEtherbase ].

(** ** Invariants of the loop *)

(** What holds of every controller the loop can reach. *)
Record wf (c : Controller) : Prop := {
  wf_running_intent : state c = Running -> intent c = true;
  wf_running_open   : state c = Running -> closed c = false;
  wf_first_sync     : everSynced c = false -> syncing c = true -> state c = Stopped
}.

(** The downloader's start and failure no longer count: the sticky flag is
    set, or the controller is closed. *)
Definition settled (c : Controller) : Prop :=
  everSynced c = true \/ closed c = true.

(** The first sync is in progress (or the controller is closed): the
    controller is stopped. *)
Definition gated (c : Controller) : Prop :=
  everSynced c = false /\ state c = Stopped /\
  (closed c = true \/ syncing c = true).

End Miner.

(* ================================================================== *)
(** * The whitelist store *)
(* ================================================================== *)

Module Whitelist.

(** [CheckpointRecord]: a block number ([uint64]) and the hash of that block. *)
Record Checkpoint := mkCheckpoint {
  blockNumber : Z;
  blockHash   : Z
}.

Definition same_checkpoint (a b : Checkpoint) : bool :=
  (blockNumber a =? blockNumber b)%Z && (blockHash a =? blockHash b)%Z.

(** The store: the accepted records, the most recent first, and the number
    of records it keeps ([whitelist.NewService(10)] at [backend.go:249]). *)
Record Service := mkService {
  maxCapacity : nat;
  checkpoints : list Checkpoint
}.

Definition NewService (maxCapacity : nat) : Service :=
  {| maxCapacity := maxCapacity; checkpoints := [] |}.

(** The record the store currently holds. *)
Definition latest (s : Service) : option Checkpoint := hd_error (checkpoints s).

(** The highest block number accepted so far, [-1] while there is none. *)
Definition highest (s : Service) : Z :=
  match latest s with Some c => blockNumber c | None => (-1)%Z end.

Definition accept (c : Checkpoint) (s : Service) : Service :=
  {| maxCapacity := maxCapacity s;
     checkpoints := firstn (maxCapacity s) (c :: checkpoints s) |}.

(** Modelled from the spec: [Service.ProcessCheckpoint] of
    [eth/downloader/whitelist] is not among the sources, only the reference to
    it at [backend.go:717] is.  The store keeps the most recent accepted
    records, ignores a block number lower than the one it holds, and
    installing the pair it holds again changes nothing. *)
Definition ProcessCheckpoint (number hash : Z) (s : Service) : Service :=
  let c := {| blockNumber := number; blockHash := hash |} in
  match latest s with
  | None => accept c s
  | Some top =>
      if (number <? blockNumber top)%Z then s
      else if same_checkpoint c top then s
      else accept c s
  end.

End Whitelist.

(* ================================================================== *)
(** * The Ethereum service ([eth/backend.go]) *)
(* ================================================================== *)

Module Eth.

Local Open Scope Z_scope.

Definition Address := Z.
Definition Hash := Z.

(** A wallet of the account manager, by its handle. *)
Definition Wallet := nat.

(** ** Errors *)

Inductive error :=
| ErrNotBorConsensus               (* errors.New("not bor consensus was given") *)
| ErrBorConsensusWithoutHeimdall   (* errors.New("bor consensus without heimdall") *)
| ErrEtherbaseUnspecified          (* fmt.Errorf("etherbase must be explicitly specified") *)
| ErrEtherbaseMissing (cause : error)      (* fmt.Errorf("etherbase missing: %v", err) *)
| ErrSignerMissing                 (* fmt.Errorf("signer missing: %v", err), err == nil *)
| ErrSignerMissingBecause (cause : error)  (* fmt.Errorf("signer missing: %v", err) *)
| ErrOther (id : nat)              (* an error value of a collaborator *)
| ErrWrapped (id : nat) (inner : error).   (* a collaborator's error whose Unwrap() is [inner] *)

Fixpoint error_eqb (a b : error) : bool :=
  match a, b with
  | ErrNotBorConsensus, ErrNotBorConsensus => true
  | ErrBorConsensusWithoutHeimdall, ErrBorConsensusWithoutHeimdall => true
  | ErrEtherbaseUnspecified, ErrEtherbaseUnspecified => true
  | ErrEtherbaseMissing x, ErrEtherbaseMissing y => error_eqb x y
  | ErrSignerMissing, ErrSignerMissing => true
  | ErrSignerMissingBecause x, ErrSignerMissingBecause y => error_eqb x y
  | ErrOther i, ErrOther j => Nat.eqb i j
  | ErrWrapped i x, ErrWrapped j y => Nat.eqb i j && error_eqb x y
  | _, _ => false
  end.

(** [errors.Is]: [err] or an error down its [Unwrap] chain is [target].
    [%v] formats its operand and wraps nothing. *)
Fixpoint errors_Is (err target : error) : bool :=
  error_eqb err target
  || match err with
     | ErrWrapped _ inner => errors_Is inner target
     | _ => false
     end.

(** [fmt.Errorf("signer missing: %v", err)] *)
Definition signer_missing (err : option error) : error :=
  match err with
  | None => ErrSignerMissing
  | Some e => ErrSignerMissingBecause e
  end.

(** ** Consensus engines

    The dynamic types [StartMining] and [handleWhitelistCheckpoint] tell
    apart: [*clique.Clique], [*bor.Bor] with its [HeimdallClient] field,
    [*beacon.Beacon] with the engine [InnerEngine()] returns, and the rest. *)
Inductive Engine :=
| Clique
| Bor (HeimdallClient : option nat)
| Beacon (InnerEngine : Engine)
| Ethash
| OtherEngine (id : nat).

(** ** Calls to collaborators *)

Inductive Call :=
(* consensus engine *)
| SetThreads (threads : Z)
| CliqueAuthorize (signer : Address) (wallet : Wallet)
| BorAuthorize (signer : Address) (wallet : Wallet)
| EngineClose
(* transaction pool *)
| TxPoolSetGasPrice (price : Z)
| TxPoolStop
(* account manager *)
| AccountManagerFind (account : Address)
(* miner *)
| GoMinerStart                     (* go s.miner.Start() *)
| MinerSetEtherbase (etherbase : Address)
| MinerStop
| MinerClose
(* handler and downloader *)
| FetchWhitelistCheckpoints (deadline : Z) (first : bool)
| ProcessCheckpoint (number : Z) (hash : Hash)
| HandlerStop
(* context and time *)
| ContextWithTimeout (timeout : Z)
| ContextCancel
| NewTicker (period : Z)
| TickerStop
(* lifecycle *)
| EthDialCandidatesClose
| SnapDialCandidatesClose
| BloomIndexerClose
| CloseBloomHandler                (* close(s.closeBloomHandler) *)
| CloseCloseCh                     (* close(s.closeCh) *)
| BlockchainStop
| ShutdownTrackerStop
| ChainDbClose
| EventMuxStop.

Inductive Log :=
| LogInfo (msg : string)
| LogWarn (msg : string) (err : option error)
| LogError (msg : string) (err : option error).

(** ** The service and what surrounds it *)

Record Ethereum := mkEthereum {
  (* fields of the struct *)
  engine            : Engine;
  authorized        : bool;
  gasPrice          : Z;
  etherbase         : Address;
  closeBloomHandler : bool;     (* the channel has been closed *)
  closeCh           : bool;     (* the channel has been closed *)
  (* collaborators *)
  threaded  : bool;             (* the engine's type has SetThreads(int) *)
  accounts  : Address -> option Wallet * option error;  (* accountManager.Find *)
  replies   : nat -> Call -> option error;  (* the error the n-th call returns *)
  acceptTxs : Z;                (* s.handler.acceptTxs *)
  mining    : bool;             (* s.miner.Mining() *)
  (* the clock, the calls made so far with their instants, the log *)
  now   : Z;
  calls : list (Z * Call);
  logs  : list Log
}.

Definition set_authorized (b : bool) (w : Ethereum) : Ethereum :=
  {| engine := engine w; authorized := b; gasPrice := gasPrice w;
     etherbase := etherbase w; closeBloomHandler := closeBloomHandler w;
     closeCh := closeCh w; threaded := threaded w; accounts := accounts w;
     replies := replies w; acceptTxs := acceptTxs w; mining := mining w;
     now := now w; calls := calls w; logs := logs w |}.

Definition set_etherbase (a : Address) (w : Ethereum) : Ethereum :=
  {| engine := engine w; authorized := authorized w; gasPrice := gasPrice w;
     etherbase := a; closeBloomHandler := closeBloomHandler w;
     closeCh := closeCh w; threaded := threaded w; accounts := accounts w;
     replies := replies w; acceptTxs := acceptTxs w; mining := mining w;
     now := now w; calls := calls w; logs := logs w |}.

Definition set_closeBloomHandler (b : bool) (w : Ethereum) : Ethereum :=
  {| engine := engine w; authorized := authorized w; gasPrice := gasPrice w;
     etherbase := etherbase w; closeBloomHandler := b;
     closeCh := closeCh w; threaded := threaded w; accounts := accounts w;
     replies := replies w; acceptTxs := acceptTxs w; mining := mining w;
     now := now w; calls := calls w; logs := logs w |}.

Definition set_closeCh (b : bool) (w : Ethereum) : Ethereum :=
  {| engine := engine w; authorized := authorized w; gasPrice := gasPrice w;
     etherbase := etherbase w; closeBloomHandler := closeBloomHandler w;
     closeCh := b; threaded := threaded w; accounts := accounts w;
     replies := replies w; acceptTxs := acceptTxs w; mining := mining w;
     now := now w; calls := calls w; logs := logs w |}.

Definition set_acceptTxs (v : Z) (w : Ethereum) : Ethereum :=
  {| engine := engine w; authorized := authorized w; gasPrice := gasPrice w;
     etherbase := etherbase w; closeBloomHandler := closeBloomHandler w;
     closeCh := closeCh w; threaded := threaded w; accounts := accounts w;
     replies := replies w; acceptTxs := v; mining := mining w;
     now := now w; calls := calls w; logs := logs w |}.

Definition set_now (t : Z) (w : Ethereum) : Ethereum :=
  {| engine := engine w; authorized := authorized w; gasPrice := gasPrice w;
     etherbase := etherbase w; closeBloomHandler := closeBloomHandler w;
     closeCh := closeCh w; threaded := threaded w; accounts := accounts w;
     replies := replies w; acceptTxs := acceptTxs w; mining := mining w;
     now := t; calls := calls w; logs := logs w |}.

Definition set_calls (l : list (Z * Call)) (w : Ethereum) : Ethereum :=
  {| engine := engine w; authorized := authorized w; gasPrice := gasPrice w;
     etherbase := etherbase w; closeBloomHandler := closeBloomHandler w;
     closeCh := closeCh w; threaded := threaded w; accounts := accounts w;
     replies := replies w; acceptTxs := acceptTxs w; mining := mining w;
     now := now w; calls := l; logs := logs w |}.

Definition set_logs (l : list Log) (w : Ethereum) : Ethereum :=
  {| engine := engine w; authorized := authorized w; gasPrice := gasPrice w;
     etherbase := etherbase w; closeBloomHandler := closeBloomHandler w;
     closeCh := closeCh w; threaded := threaded w; accounts := accounts w;
     replies := replies w; acceptTxs := acceptTxs w; mining := mining w;
     now := now w; calls := calls w; logs := l |}.

(** ** Statements

    A statement of a Go function whose result type is [R] either falls through
    to the next one with a value, returns from the function, panics, or is
    left waiting in a [select] for which nothing more is scheduled. *)
Inductive Res (R A : Type) :=
| Next (a : A) (w : Ethereum)
| Ret (r : R) (w : Ethereum)
| Panic (w : Ethereum)
| Blocked (w : Ethereum).

Arguments Next {R A} a w.
Arguments Ret {R A} r w.
Arguments Panic {R A} w.
Arguments Blocked {R A} w.

Definition M (R A : Type) : Type := Ethereum -> Res R A.

Definition bind {R A B} (m : M R A) (k : A -> M R B) : M R B :=
  fun w =>
    match m w with
    | Next a w' => k a w'
    | Ret r w' => Ret r w'
    | Panic w' => Panic w'
    | Blocked w' => Blocked w'
    end.

Notation "x <- m ;; k" := (bind m (fun x => k))
  (at level 61, m at next level, right associativity).
Notation "m ;; k" := (bind m (fun _ => k))
  (at level 61, right associativity).

Definition skip {R} : M R unit := fun w => Next tt w.
Definition ret {R A} (r : R) : M R A := fun w => Ret r w.
Definition panic {R A} : M R A := fun w => Panic w.
Definition blocked {R A} : M R A := fun w => Blocked w.
Definition gets {R A} (f : Ethereum -> A) : M R A := fun w => Next (f w) w.
Definition when {R} (b : bool) (m : M R unit) : M R unit := if b then m else skip.

(** A call to a collaborator: recorded with its instant; the value is the
    error the collaborator returns. *)
Definition call {R} (c : Call) : M R (option error) :=
  fun w => Next (replies w (length (calls w)) c)
                (set_calls (calls w ++ [(now w, c)]) w).

Definition log {R} (l : Log) : M R unit :=
  fun w => Next tt (set_logs (logs w ++ [l]) w).

(** [close(ch)]: closing a closed channel panics. *)
Definition close_chan {R} (c : Call) (is_closed : Ethereum -> bool)
           (set : bool -> Ethereum -> Ethereum) : M R unit :=
  fun w => if is_closed w then Panic w
           else Next tt (set true (set_calls (calls w ++ [(now w, c)]) w)).

(** The state a statement leaves, however it ends. *)
Definition final {R A} (r : Res R A) : Ethereum :=
  match r with
  | Next _ w | Ret _ w | Panic w | Blocked w => w
  end.

(** A function body ends in a [return]: it never falls through, so its
    statements have no value to pass on. *)
Definition Body (R : Type) : Type := M R Empty_set.

(** A function called from another one: what it returns is the value of the
    call. *)
Definition invoke {R R'} (f : Body R') : M R R' :=
  fun w =>
    match f w with
    | Ret r w' => Next r w'
    | Next a _ => match a with end
    | Panic w' => Panic w'
    | Blocked w' => Blocked w'
    end.

(** [defer f()]: the call is made when the function returns or panics. *)
Definition defer {R A} (c : Call) (body : M R A) : M R A :=
  fun w =>
    let record w' := set_calls (calls w' ++ [(now w', c)]) w' in
    match body w with
    | Next a w' => Next a w'
    | Ret r w' => Ret r (record w')
    | Panic w' => Panic (record w')
    | Blocked w' => Blocked w'
    end.

(** [for i := 0; i < n; i++ { body }] *)
Fixpoint for_range {R} (n : nat) (i : nat) (body : nat -> M R unit) : M R unit :=
  match n with
  | O => skip
  | S n' => body i ;; for_range n' (S i) body
  end.

(** ** Etherbase and mining *)

(** [func (s *Ethereum) Etherbase() (eb common.Address, err error)] *)
Definition Etherbase (w : Ethereum) : Address * option error :=
  let etherbase := etherbase w in
  if negb (etherbase =? 0) then (etherbase, None)
  else (0, Some ErrEtherbaseUnspecified).

(** [func (s *Ethereum) SetEtherbase(etherbase common.Address)] *)
Definition SetEtherbase (etherbase : Address) : M unit unit :=
  (fun w => Next tt (set_etherbase etherbase w)) ;;
  call (MinerSetEtherbase etherbase) ;;
  skip.

(** [func (s *Ethereum) SetAuthorized(authorized bool)] *)
Definition SetAuthorized (authorized : bool) : M unit unit :=
  fun w => Next tt (set_authorized authorized w).

(** [func (s *Ethereum) IsMining() bool { return s.miner.Mining() }] *)
Definition IsMining (w : Ethereum) : bool := mining w.

(** [s.accountManager.Find(accounts.Account{Address: eb})] *)
Definition Find {R} (eb : Address) : M R (option Wallet * option error) :=
  call (AccountManagerFind eb) ;;
  gets (fun w => accounts w eb).

(** The clique engine [StartMining] authorizes: the engine itself, or the
    engine a beacon engine wraps. *)
Definition clique_of (e : Engine) : option Engine :=
  match e with
  | Clique => Some Clique
  | Beacon cl =>
      match cl with
      | Clique => Some Clique
      | _ => None
      end
  | _ => None
  end.

Definition is_bor (e : Engine) : bool :=
  match e with Bor _ => true | _ => false end.

Definition is_some {A} (o : option A) : bool :=
  match o with Some _ => true | None => false end.

(** [func (s *Ethereum) StartMining(threads int) error] *)
Definition StartMining (threads : Z) : Body (option error) :=
  th <- gets threaded ;;
  when th (
    log (LogInfo "Updated mining threads"%string) ;;
    let threads := if threads =? 0 then -1 else threads in
    call (SetThreads threads) ;;
    skip) ;;
  isMining <- gets IsMining ;;
  when (negb isMining) (
    price <- gets gasPrice ;;
    call (TxPoolSetGasPrice price) ;;
    r <- gets Etherbase ;;
    let '(eb, err) := r in
    match err with
    | Some err =>
        log (LogError "Cannot start mining without etherbase"%string (Some err)) ;;
        ret (Some (ErrEtherbaseMissing err))
    | None => skip
    end ;;
    auth <- gets authorized ;;
    when (negb auth) (
      eng <- gets engine ;;
      when (is_some (clique_of eng)) (
        r <- Find eb ;;
        let '(wallet, err) := r in
        match wallet, err with
        | Some wallet, None =>
            call (CliqueAuthorize eb wallet) ;; skip
        | _, _ =>
            log (LogError "Etherbase account unavailable locally"%string err) ;;
            ret (Some (signer_missing err))
        end) ;;
      when (is_bor eng) (
        r <- Find eb ;;
        let '(wallet, err) := r in
        match wallet, err with
        | Some wallet, None =>
            call (BorAuthorize eb wallet) ;; skip
        | _, _ =>
            log (LogError "Etherbase account unavailable locally"%string err) ;;
            ret (Some (signer_missing err))
        end)) ;;
    (fun w => Next tt (set_acceptTxs 1 w)) ;;
    call GoMinerStart ;;
    skip) ;;
  ret None.

(** [func (s *Ethereum) StopMining()] *)
Definition StopMining : M unit unit :=
  th <- gets threaded ;;
  when th (call (SetThreads (-1)) ;; skip) ;;
  call MinerStop ;;
  skip.

(** ** The checkpoint whitelist service *)

Definition Second : Z := 1000000000.

(** [whitelistTimeout = 30 * time.Second] *)
Definition whitelistTimeout : Z := 30 * Second.

(** [time.NewTicker(100 * time.Second)] *)
Definition tickerPeriod : Z := 100 * Second.

(** What [ethHandler.fetchWhitelistCheckpoints] answers, and how long the
    call takes. *)
Record FetchResult := mkFetchResult {
  blockNums   : list Z;
  blockHashes : list Hash;
  fetchErr    : option error;
  took        : Z
}.

Definition fetchWhitelistCheckpoints {R} (deadline : Z) (first : bool)
           (answer : FetchResult) : M R FetchResult :=
  call (FetchWhitelistCheckpoints deadline first) ;;
  (fun w => Next answer (set_now (now w + took answer) w)).

(** [func (s *Ethereum) handleWhitelistCheckpoint(ctx context.Context, first bool) error];
    [ctx] is its deadline, [answer] is what the fetch of this call yields.
    The fetch is the one statement that takes time; [newCheckpointVerifier(nil)]
    only builds the verifier it is given. *)
Definition handleWhitelistCheckpoint (ctx : Z) (first : bool)
           (answer : FetchResult) : Body (option error) :=
  eng <- gets engine ;;
  match eng with
  | Bor HeimdallClient =>
      match HeimdallClient with
      | None => ret (Some ErrBorConsensusWithoutHeimdall)
      | Some _ =>
          r <- fetchWhitelistCheckpoints ctx first answer ;;
          let blockNums := blockNums r in
          let blockHashes := blockHashes r in
          let err := fetchErr r in
          when (length blockNums =? 0)%nat (ret err) ;;
          for_range (length blockNums) 0 (fun i =>
            match nth_error blockNums i, nth_error blockHashes i with
            | Some n, Some h => call (ProcessCheckpoint n h) ;; skip
            | _, _ => panic          (* index out of range *)
            end) ;;
          ret None
      end
  | _ => ret (Some ErrNotBorConsensus)
  end.

(** The channel [s.closeCh] as the goroutine sees it: closed when the
    goroutine was started, or closed by a [Stop()] that runs at [closeAt]. *)
Definition closed_now (closeAt : option Z) (w : Ethereum) : bool :=
  closeCh w
  || match closeAt with
     | Some c => c <=? now w
     | None => false
     end.

Inductive Case := CaseTick | CaseClose.

(** The case a [select] takes among the ready ones; Go picks one of several
    at random, here by [preferTick]. *)
Definition pick (tickReady closeReady preferTick : bool) : Case :=
  if tickReady && closeReady then (if preferTick then CaseTick else CaseClose)
  else if closeReady then CaseClose
  else CaseTick.

(** [select { case <-ticker.C: ... case <-s.closeCh: ... }]: the goroutine
    sleeps until the ticker's next tick or the closing of [closeCh],
    whichever comes first. *)
Definition select {R} (closeAt : option Z) (nextTick : Z) (preferTick : bool)
  : M R Case :=
  fun w =>
    let tickReady := nextTick <=? now w in
    let closeReady := closed_now closeAt w in
    if tickReady || closeReady then Next (pick tickReady closeReady preferTick) w
    else
      let wake := match closeAt with
                  | Some c => Z.min nextTick c
                  | None => nextTick
                  end in
      let w' := set_now wake w in
      Next (pick (nextTick <=? wake) (closed_now closeAt w') preferTick) w'.

(** The tick after the one received at [t]: a ticker drops the ticks a slow
    receiver misses. *)
Definition tick_after (nextTick t : Z) : Z :=
  nextTick + tickerPeriod * ((t - nextTick) / tickerPeriod + 1).

(** One whitelist cycle:
    [ctx, cancel := context.WithTimeout(context.Background(), whitelistTimeout);
     err := s.handleWhitelistCheckpoint(ctx, first); cancel()] *)
Definition cycle {R} (first : bool) (answer : FetchResult) : M R (option error) :=
  call (ContextWithTimeout whitelistTimeout) ;;
  t <- gets now ;;
  err <- invoke (handleWhitelistCheckpoint (t + whitelistTimeout) first answer) ;;
  call ContextCancel ;;
  (fun w => Next err w).

(** What the surroundings decide for one turn of the loop. *)
Record Turn := mkTurn {
  preferTick : bool;          (* the select's choice when both cases are ready *)
  answer     : FetchResult    (* the fetch of the cycle, if the tick is taken *)
}.

(** [for { select { ... } }], one turn per element of [turns]. *)
Fixpoint whitelistLoop (closeAt : option Z) (nextTick : Z) (turns : list Turn)
  : M unit Empty_set :=
  match turns with
  | [] => blocked
  | turn :: turns' =>
      c <- select closeAt nextTick (preferTick turn) ;;
      match c with
      | CaseTick =>
          t <- gets now ;;
          err <- cycle false (answer turn) ;;
          match err with
          | Some e => log (LogWarn "unable to whitelist checkpoint"%string (Some e))
          | None => skip
          end ;;
          whitelistLoop closeAt (tick_after nextTick t) turns'
      | CaseClose => ret tt
      end
  end.

(** The surroundings of one run of the service. *)
Record Schedule := mkSchedule {
  closeAt     : option Z;     (* the instant [Stop()] closes [closeCh] *)
  firstAnswer : FetchResult;  (* the fetch of the first cycle *)
  turns       : list Turn
}.

(** [func (s *Ethereum) startCheckpointWhitelistService()] *)
Definition startCheckpointWhitelistService (s : Schedule) : Body unit :=
  closed <- gets (closed_now (closeAt s)) ;;
  when closed (ret tt) ;;
  err <- cycle true (firstAnswer s) ;;
  match err with
  | Some e =>
      when (errors_Is e ErrBorConsensusWithoutHeimdall || errors_Is e ErrNotBorConsensus)
           (ret tt) ;;
      log (LogWarn "unable to whitelist checkpoint - first run"%string (Some e))
  | None => skip
  end ;;
  call (NewTicker tickerPeriod) ;;
  defer TickerStop (
    t0 <- gets now ;;
    whitelistLoop (closeAt s) (t0 + tickerPeriod) (turns s)).

(** ** Shutdown *)

(** [func (s *Ethereum) Stop() error] *)
Definition Stop : Body (option error) :=
  call EthDialCandidatesClose ;;
  call SnapDialCandidatesClose ;;
  call HandlerStop ;;
  call BloomIndexerClose ;;
  close_chan CloseBloomHandler closeBloomHandler set_closeBloomHandler ;;
  close_chan CloseCloseCh closeCh set_closeCh ;;
  call EngineClose ;;
  call TxPoolStop ;;
  call MinerClose ;;
  call BlockchainStop ;;
  call EngineClose ;;
  call ShutdownTrackerStop ;;
  call ChainDbClose ;;
  call EventMuxStop ;;
  ret None.

(** ** Observations *)

(** What a function returned, when it did. *)
Definition result {R A} (r : Res R A) : option R :=
  match r with
  | Ret x _ => Some x
  | _ => None
  end.

(** The calls made between the state [w] and the later state [w'], with
    their instants. *)
Definition made (w w' : Ethereum) : list (Z * Call) :=
  skipn (List.length (calls w)) (calls w').

(** The errors those calls returned, in order. *)
Definition returned_errors (w w' : Ethereum) : list (option error) :=
  map (fun ic => replies w (fst ic) (snd ic))
      (combine (seq (List.length (calls w)) (List.length (made w w')))
               (map snd (made w w'))).

Fixpoint first_error (l : list (option error)) : option error :=
  match l with
  | [] => None
  | Some e :: _ => Some e
  | None :: rest => first_error rest
  end.

(** The engines the claim on [StartMining] calls signer-capable: clique,
    clique wrapped one level inside beacon, or bor. *)
Definition signer_capable (e : Engine) : bool :=
  match e with
  | Clique => true
  | Beacon Clique => true
  | Bor _ => true
  | _ => false
  end.

(** The thread count [StartMining] hands to the engine. *)
Definition engine_threads (threads : Z) : Z :=
  if threads =? 0 then -1 else threads.

(** The teardown steps in the order the specification lists them. *)
Definition teardown_order : list Call :=
  [ EthDialCandidatesClose; SnapDialCandidatesClose;   (* dial/discovery iterators *)
    HandlerStop;                                       (* protocol handlers *)
    BloomIndexerClose; CloseBloomHandler;              (* auxiliary indexers *)
    CloseCloseCh;                                      (* shutdown signal *)
    EngineClose;                                       (* consensus engine *)
    TxPoolStop;                                        (* transaction pool *)
    MinerClose;                                        (* miner *)
    BlockchainStop;                                    (* chain store *)
    ShutdownTrackerStop;                               (* clean-shutdown marker *)
    ChainDbClose ].                                    (* database *)

(** [l] holds the elements of [sub] in that order. *)
Fixpoint subsequence (eqb : Call -> Call -> bool) (sub l : list Call) : bool :=
  match sub, l with
  | [], _ => true
  | _ :: _, [] => false
  | x :: sub', y :: l' =>
      if eqb x y then subsequence eqb sub' l' else subsequence eqb sub l'
  end.

Definition lifecycle_call_eqb (a b : Call) : bool :=
  match a, b with
  | EthDialCandidatesClose, EthDialCandidatesClose
  | SnapDialCandidatesClose, SnapDialCandidatesClose
  | HandlerStop, HandlerStop
  | BloomIndexerClose, BloomIndexerClose
  | CloseBloomHandler, CloseBloomHandler
  | CloseCloseCh, CloseCloseCh
  | EngineClose, EngineClose
  | TxPoolStop, TxPoolStop
  | MinerClose, MinerClose
  | BlockchainStop, BlockchainStop
  | ShutdownTrackerStop, ShutdownTrackerStop
  | ChainDbClose, ChainDbClose
  | EventMuxStop, EventMuxStop => true
  | _, _ => false
  end.

(** The calls of installing the fetched pairs at the instant [t]. *)
Definition installs (t : Z) (nums hashes : list Z) : list (Z * Call) :=
  map (fun p => (t, ProcessCheckpoint (fst p) (snd p))) (combine nums hashes).

(** The schedule of the specification: one cycle under the 30-second timeout
    started at [t], whose fetch answers [a]... *)
Definition cycle_calls (first : bool) (a : FetchResult) (t : Z) : list (Z * Call) :=
  (t, ContextWithTimeout whitelistTimeout)
  :: (t, FetchWhitelistCheckpoints (t + whitelistTimeout) first)
  :: installs (t + took a) (blockNums a) (blockHashes a)
  ++ [(t + took a, ContextCancel)].

(** ... and one such cycle per tick: at [tick], at [tick + tickerPeriod], and
    so on, one for each of [answers]. *)
Fixpoint tick_cycles (tick : Z) (answers : list FetchResult) : list (Z * Call) :=
  match answers with
  | [] => []
  | a :: rest => cycle_calls false a tick ++ tick_cycles (tick + tickerPeriod) rest
  end.

(** The contract of the fetch: block numbers and hashes are parallel arrays,
    and the call is over by the deadline of its context. *)
Definition good_answer (a : FetchResult) : Prop :=
  List.length (blockNums a) = List.length (blockHashes a)
  /\ 0 <= took a <= whitelistTimeout.

(** ** Sample nodes *)

(** A node on the engine [e] with the etherbase [eb]: not authorized, no
    wallet in the account manager, nothing closed, not mining. *)
Definition node (e : Engine) (eb : Address) : Ethereum :=
  {| engine := e; authorized := false; gasPrice := 1000000000;
     etherbase := eb; closeBloomHandler := false; closeCh := false;
     threaded := false;
     accounts := fun _ => (None, Some (ErrOther 0));
     replies := fun _ _ => None;
     acceptTxs := 0; mining := false;
     now := 0; calls := []; logs := [] |}.

(** The same node while the miner runs, on an engine with [SetThreads]. *)
Definition mining_node (e : Engine) (eb : Address) : Ethereum :=
  {| engine := e; authorized := false; gasPrice := 1000000000;
     etherbase := eb; closeBloomHandler := false; closeCh := false;
     threaded := true;
     accounts := fun _ => (None, Some (ErrOther 0));
     replies := fun _ _ => None;
     acceptTxs := 1; mining := true;
     now := 0; calls := []; logs := [] |}.

(** A node whose consensus engine fails to close. *)
Definition node_engine_close_fails : Ethereum :=
  {| engine := Bor (Some O); authorized := false; gasPrice := 1000000000;
     etherbase := 1; closeBloomHandler := false; closeCh := false;
     threaded := false;
     accounts := fun _ => (None, Some (ErrOther 0));
     replies := fun _ c => match c with
                           | EngineClose => Some (ErrOther 1)
                           | _ => None
                           end;
     acceptTxs := 0; mining := false;
     now := 0; calls := []; logs := [] |}.

(** A fetch that verified one record and then failed. *)
Definition partial_answer : FetchResult :=
  {| blockNums := [100]; blockHashes := [4660];
     fetchErr := Some (ErrOther 2); took := Second |}.

(** A fetch that verified two records. *)
Definition full_answer : FetchResult :=
  {| blockNums := [100; 200]; blockHashes := [4660; 9029];
     fetchErr := None; took := 2 * Second |}.

(** The error [handleWhitelistCheckpoint] returns before it fetches anything:
    [ErrNotBorConsensus] when the engine is not bor,
    [ErrBorConsensusWithoutHeimdall] when bor has no Heimdall client. *)
Definition capability_error (e : Engine) : option error :=
  match e with
  | Bor (Some _) => None
  | Bor None => Some ErrBorConsensusWithoutHeimdall
  | _ => Some ErrNotBorConsensus
  end.

(** A schedule that closes [closeCh] after 250 seconds and answers every
    fetch in full. *)
Definition sample_schedule : Schedule :=
  {| closeAt := Some (250 * Second);
     firstAnswer := full_answer;
     turns := [ {| preferTick := true; answer := full_answer |};
                {| preferTick := true; answer := partial_answer |};
                {| preferTick := false; answer := full_answer |};
                {| preferTick := true; answer := full_answer |} ] |}.

(** The error a cycle ends with on a bor engine with a Heimdall client. *)
Definition cycle_error (a : FetchResult) : option error :=
  match blockNums a with
  | [] => fetchErr a
  | _ :: _ => None
  end.

(** The error makes the service give up: it is, or wraps, one of the two
    capability errors. *)
Definition permanent (err : option error) : bool :=
  match err with
  | Some e => errors_Is e ErrBorConsensusWithoutHeimdall
              || errors_Is e ErrNotBorConsensus
  | None => false
  end.

(** The value a statement passes on, when it falls through. *)
Definition value {R A} (r : Res R A) : option A :=
  match r with
  | Next a _ => Some a
  | _ => None
  end.

End Eth.

(* ================================================================== *)
(** * The rest of [eth/backend.go] *)
(* ================================================================== *)

Module Backend.

Import Eth.
Local Open Scope Z_scope.

(** Go's [int] on the 64-bit targets the node is built for: arithmetic wraps
    around, division truncates toward zero. *)
Definition wrap_int (z : Z) : Z := (z + 2 ^ 63) mod 2 ^ 64 - 2 ^ 63.

(** The fields of [ethconfig.Config] that [New], [Start] and [isLocalBlock]
    read or write. *)
Record Config := mkConfig {
  SyncMode           : Z;           (* downloader.SyncMode *)
  MinerGasPrice      : option Z;    (* config.Miner.GasPrice, a *big.Int *)
  NoPruning          : bool;
  TrieCleanCache     : Z;           (* int *)
  TrieDirtyCache     : Z;           (* int *)
  SnapshotCache      : Z;           (* int *)
  SkipBcVersionCheck : bool;
  LightServ          : Z;           (* int *)
  LightPeers         : Z;           (* int *)
  TxPoolLocals       : list Address (* config.TxPool.Locals *)
}.

(** What the other packages declare. *)
Record Externals := mkExternals {
  LightSync             : Z;              (* downloader.LightSync *)
  IsValid               : Z -> bool;      (* downloader.SyncMode.IsValid *)
  DefaultsMinerGasPrice : Z;              (* ethconfig.Defaults.Miner.GasPrice *)
  BlockChainVersion     : Z;              (* core.BlockChainVersion, a uint64 *)
  MaximumExtraDataSize  : Z;              (* params.MaximumExtraDataSize, a uint64 *)
  defaultExtraData      : list Byte.byte  (* the rlp encoding of version, "bor",
                                             runtime.Version() and runtime.GOOS *)
}.

Definition set_MinerGasPrice (p : option Z) (c : Config) : Config :=
  {| SyncMode := SyncMode c; MinerGasPrice := p; NoPruning := NoPruning c;
     TrieCleanCache := TrieCleanCache c; TrieDirtyCache := TrieDirtyCache c;
     SnapshotCache := SnapshotCache c;
     SkipBcVersionCheck := SkipBcVersionCheck c; LightServ := LightServ c;
     LightPeers := LightPeers c; TxPoolLocals := TxPoolLocals c |}.

Definition set_caches (clean dirty snapshot : Z) (c : Config) : Config :=
  {| SyncMode := SyncMode c; MinerGasPrice := MinerGasPrice c;
     NoPruning := NoPruning c;
     TrieCleanCache := clean; TrieDirtyCache := dirty;
     SnapshotCache := snapshot;
     SkipBcVersionCheck := SkipBcVersionCheck c; LightServ := LightServ c;
     LightPeers := LightPeers c; TxPoolLocals := TxPoolLocals c |}.

Inductive new_error :=
| ErrLightSync                       (* "can't run ethereum.Ethereum in light sync mode, ..." *)
| ErrInvalidSyncMode (mode : Z)      (* "invalid sync mode %d" *)
| ErrDatabaseVersion (version : Z).  (* "database version is v%d, Geth %s only supports v%d" *)

(** [New], lines 116-139: the configuration is checked and made sane in
    place.  The value is the configuration [New] goes on with, or the error
    it returns; the list holds what was logged. *)
Definition New_sanitize (x : Externals) (config : Config)
  : list Log * (new_error + Config) :=
  if SyncMode config =? LightSync x then ([], inl ErrLightSync)
  else if negb (IsValid x (SyncMode config))
  then ([], inl (ErrInvalidSyncMode (SyncMode config)))
  else
    let '(logged, config) :=
      match MinerGasPrice config with
      | Some price =>
          if price <=? 0
          then ([LogWarn "Sanitizing invalid miner gas price"%string None],
                set_MinerGasPrice (Some (DefaultsMinerGasPrice x)) config)
          else ([], config)
      | None =>
          ([LogWarn "Sanitizing invalid miner gas price"%string None],
           set_MinerGasPrice (Some (DefaultsMinerGasPrice x)) config)
      end in
    let config :=
      if NoPruning config && (TrieDirtyCache config >? 0)
      then
        if SnapshotCache config >? 0
        then
          set_caches
            (wrap_int (TrieCleanCache config
                       + Z.quot (wrap_int (TrieDirtyCache config * 3)) 5))
            0
            (wrap_int (SnapshotCache config
                       + Z.quot (wrap_int (TrieDirtyCache config * 2)) 5))
            config
        else
          set_caches
            (wrap_int (TrieCleanCache config + TrieDirtyCache config))
            0
            (SnapshotCache config)
            config
      else config in
    (logged, inr config).

(** [New], lines 217-227: the version the database holds ([bcVersion], nil in
    a fresh database) against [core.BlockChainVersion].  The value is the
    version the database holds afterwards, or the error [New] returns. *)
Definition New_checkBcVersion (x : Externals) (config : Config)
           (bcVersion : option Z) : list Log * (new_error + option Z) :=
  if negb (SkipBcVersionCheck config)
  then
    match bcVersion with
    | Some v =>
        if v >? BlockChainVersion x then ([], inl (ErrDatabaseVersion v))
        else if v <? BlockChainVersion x
        then ([LogWarn "Upgrade blockchain database version"%string None],
              inr (Some (BlockChainVersion x)))   (* rawdb.WriteDatabaseVersion *)
        else ([], inr bcVersion)
    | None => ([], inr (Some (BlockChainVersion x)))  (* rawdb.WriteDatabaseVersion *)
    end
  else ([], inr bcVersion).

(** [func makeExtraData(extra []byte) []byte]; a nil slice is the empty
    list.  The value is what was logged and the slice returned. *)
Definition makeExtraData (x : Externals) (extra : list Byte.byte)
  : list Log * list Byte.byte :=
  let extra :=
    if (List.length extra =? 0)%nat then defaultExtraData x else extra in
  if Z.of_nat (List.length extra) >? MaximumExtraDataSize x
  then ([LogWarn "Miner extra data exceed limit"%string None], [])
  else ([], extra).

(** [for _, account := range s.config.TxPool.Locals { if account == author { return true } }] *)
Fixpoint range_Locals (locals : list Address) (author : Address) : bool :=
  match locals with
  | [] => false
  | account :: rest =>
      if account =? author then true else range_Locals rest author
  end.

(** [func (s *Ethereum) isLocalBlock(header *types.Header) bool]; [author] is
    what [s.engine.Author(header)] returns.  The value is what was logged and
    the boolean returned. *)
Definition isLocalBlock (config : Config) (author : Address * option error)
           (w : Ethereum) : list Log * bool :=
  match snd author with
  | Some err =>
      ([LogWarn "Failed to retrieve block author"%string (Some err)], false)
  | None =>
      let etherbase := etherbase w in
      if fst author =? etherbase then ([], true)
      else ([], range_Locals (TxPoolLocals config) (fst author))
  end.

(** [func (s *Ethereum) shouldPreserve(header *types.Header) bool]; the engine's
    [Author] is asked only when [isLocalBlock] is reached. *)
Definition shouldPreserve (config : Config) (author : Address * option error)
           (w : Ethereum) : list Log * bool :=
  match engine w with
  | Clique => ([], false)
  | _ => isLocalBlock config author w
  end.

(** [func (s *Ethereum) Synced() bool] *)
Definition Synced (w : Ethereum) : bool := acceptTxs w =? 1.

(** [func (s *Ethereum) SetSynced()] *)
Definition SetSynced : M unit unit :=
  fun w => Next tt (set_acceptTxs 1 w).

(** What [Start] sets going. *)
Inductive StartCall :=
| StartENRUpdater
| startBloomHandlers
| ShutdownTrackerStart
| HandlerStart (maxPeers : Z)
| GoStartCheckpointWhitelistService.

Inductive start_error :=
| ErrInvalidPeerConfig (lightPeers maxPeers : Z).
  (* "invalid peer config: light peer count (%d) >= total peer count (%d)" *)

(** [func (s *Ethereum) Start() error]; [MaxPeers] is [s.p2pServer.MaxPeers].
    The value is what was set going, in order, and the error returned. *)
Definition Start (config : Config) (MaxPeers : Z)
  : list StartCall * option start_error :=
  let started := [StartENRUpdater; startBloomHandlers; ShutdownTrackerStart] in
  let maxPeers := MaxPeers in
  if LightServ config >? 0
  then
    if LightPeers config >=? MaxPeers
    then (started, Some (ErrInvalidPeerConfig (LightPeers config) MaxPeers))
    else
      let maxPeers := wrap_int (maxPeers - LightPeers config) in
      (started ++ [HandlerStart maxPeers; GoStartCheckpointWhitelistService], None)
  else
    (started ++ [HandlerStart maxPeers; GoStartCheckpointWhitelistService], None).

(** ** Observations *)

(** The warning a cycle ends with: the cycle's error, under the message of
    the first run or of the loop. *)
Definition cycle_warning (first : bool) (a : FetchResult) : list Log :=
  match cycle_error a with
  | Some e =>
      [LogWarn (if first then "unable to whitelist checkpoint - first run"%string
                else "unable to whitelist checkpoint"%string) (Some e)]
  | None => []
  end.

(** The cycles started among the calls. *)
Fixpoint count_cycles (l : list (Z * Call)) : nat :=
  match l with
  | [] => O
  | (_, ContextWithTimeout _) :: rest => S (count_cycles rest)
  | _ :: rest => count_cycles rest
  end.

Definition is_GoMinerStart (c : Call) : bool :=
  match c with GoMinerStart => true | _ => false end.

(** The call that authorizes the engine [e], if [StartMining] makes one. *)
Definition authorize_call (e : Engine) (eb : Address) (wallet : Wallet)
  : option Call :=
  match e with
  | Clique => Some (CliqueAuthorize eb wallet)
  | Beacon Clique => Some (CliqueAuthorize eb wallet)
  | Bor _ => Some (BorAuthorize eb wallet)
  | _ => None
  end.

(** What a call of [StartMining] comes to, read as a table: the error it
    returns and the calls it makes, in order. *)
Definition start_trace (threads : Z) (w : Ethereum) : option error * list Call :=
  let th := if threaded w then [SetThreads (engine_threads threads)] else [] in
  if mining w then (None, th)
  else
    let eb := etherbase w in
    let price := TxPoolSetGasPrice (gasPrice w) in
    if eb =? 0
    then (Some (ErrEtherbaseMissing ErrEtherbaseUnspecified), th ++ [price])
    else if authorized w || negb (signer_capable (engine w))
    then (None, th ++ [price; GoMinerStart])
    else
      match accounts w eb with
      | (Some wallet, None) =>
          (None,
           th ++ [price; AccountManagerFind eb]
              ++ match authorize_call (engine w) eb wallet with
                 | Some c => [c]
                 | None => []
                 end
              ++ [GoMinerStart])
      | (_, err) =>
          (Some (signer_missing err), th ++ [price; AccountManagerFind eb])
      end.

(** A node with a wallet for its etherbase. *)
Definition node_with_wallet (e : Engine) (eb : Address) : Ethereum :=
  {| engine := e; authorized := false; gasPrice := 30000000000;
     etherbase := eb; closeBloomHandler := false; closeCh := false;
     threaded := false;
     accounts := fun a => if a =? eb then (Some 5%nat, None)
                          else (None, Some (ErrOther 0));
     replies := fun _ _ => None;
     acceptTxs := 0; mining := false;
     now := 0; calls := []; logs := [] |}.

(** A configuration for the samples. *)
Definition sample_config : Config :=
  {| SyncMode := 0; MinerGasPrice := None; NoPruning := true;
     TrieCleanCache := 154; TrieDirtyCache := 256; SnapshotCache := 102;
     SkipBcVersionCheck := false; LightServ := 20; LightPeers := 10;
     TxPoolLocals := [11; 12] |}.

Definition sample_externals : Externals :=
  {| LightSync := 2;
     IsValid := fun m => (0 <=? m) && (m <=? 2);
     DefaultsMinerGasPrice := 1000000000;
     BlockChainVersion := 8;
     MaximumExtraDataSize := 32;
     defaultExtraData := [Byte.x01; Byte.x02; Byte.x03] |}.

End Backend.

(* ================================================================== *)
(** * The helper of [miner/miner_test.go] *)
(* ================================================================== *)

Module MinerTest.

Inductive Outcome :=
| Returned (polls : nat)     (* the helper returned after that many polls *)
| Fatalf (state : bool).     (* t.Fatalf("Mining() == %t, want %t", state, mining) *)

(** The loop of [waitForMiningState] with [n] rounds to go, at round [i];
    [Mining j] is what the [j]-th call of [m.Mining()] returns, each after a
    sleep of 10 milliseconds. *)
Fixpoint poll (n i : nat) (Mining : nat -> bool) (mining state : bool)
  : Outcome :=
  match n with
  | O => Fatalf state
  | S n' =>
      let state := Mining i in
      if Bool.eqb state mining then Returned (S i)
      else poll n' (S i) Mining mining state
  end.

(** [func waitForMiningState(t *testing.T, m *Miner, mining bool)] *)
Definition waitForMiningState (Mining : nat -> bool) (mining : bool) : Outcome :=
  poll 100 0 Mining mining false.

(** The time slept, in milliseconds: 10 before each poll. *)
Definition slept (o : Outcome) : Z :=
  match o with
  | Returned polls => (10 * Z.of_nat polls)%Z
  | Fatalf _ => 1000%Z
  end.

End MinerTest.

(* ================================================================== *)
(** * Properties of the miner's control loop *)
(* ================================================================== *)

Section MinerFacts.

Import Miner.

(** Case analysis on the tests a transition makes. *)
Ltac split_ifs :=
  repeat (simpl;
          match goal with
          | |- context [if ?b then _ else _] => destruct b eqn:?
          end);
  simpl.

Lemma run_app (c : Controller) (l1 l2 : list Input) :
  run c (l1 ++ l2) = run (run c l1) l2.
Proof. unfold run. apply fold_left_app. Qed.

Lemma run_cons (c : Controller) (i : Input) (l : list Input) :
  run c (i :: l) = run (update c i) l.
Proof. reflexivity. Qed.

Lemma wf_New : wf New.
Proof. split; simpl; congruence. Qed.

Lemma update_wf (c : Controller) (i : Input) : wf c -> wf (update c i).
Proof.
  intros Hw. unfold update, step, failed_resumes.
  destruct (closed c) eqn:Hc; [exact Hw|].
  destruct Hw as [Hi Ho Hs].
  destruct i; simpl;
    destruct (everSynced c) eqn:He; destruct (syncing c) eqn:Hy;
    destruct (intent c) eqn:Hn; simpl;
    split; simpl; intros; solve [congruence | auto | intuition congruence].
Qed.

Lemma run_wf (l : list Input) : forall c, wf c -> wf (run c l).
Proof.
  induction l as [|i l IH]; intros c H; [exact H|].
  rewrite run_cons. apply IH, update_wf, H.
Qed.

Lemma wf_closed_stopped (c : Controller) :
  wf c -> closed c = true -> Mining c = false.
Proof.
  intros [_ Ho _] Hc. unfold Mining.
  destruct (state c); [reflexivity|]. rewrite Ho in Hc; congruence.
Qed.

(** The sticky flag is only ever set by [SyncCompleted]. *)
Lemma update_everSynced_false (c : Controller) (i : Input) :
  i <> SyncCompleted -> everSynced c = false -> everSynced (update c i) = false.
Proof.
  intros Hi He. unfold update, step, failed_resumes.
  destruct i; split_ifs; congruence.
Qed.

Lemma run_everSynced_false (l : list Input) :
  forall c, ~ In SyncCompleted l -> everSynced c = false ->
            everSynced (run c l) = false.
Proof.
  induction l as [|i l IH]; intros c Hn He; [exact He|].
  rewrite run_cons. apply IH.
  - intros H. apply Hn. now right.
  - apply update_everSynced_false; [|exact He].
    intros ->. apply Hn. now left.
Qed.

Lemma update_settled (c : Controller) (i : Input) :
  settled c -> settled (update c i).
Proof.
  intros H. unfold update, step.
  destruct (closed c) eqn:Hc; [exact H|].
  destruct H as [He|H]; [|congruence].
  destruct i; simpl; rewrite ?He; simpl; try (now left).
  destruct (intent c); now left.
Qed.

Lemma update_completed_settled (c : Controller) :
  settled (update c SyncCompleted).
Proof.
  unfold update, step. destruct (closed c) eqn:Hc; [now right|].
  simpl. destruct (intent c); now left.
Qed.

Lemma run_settled (l : list Input) :
  forall c, settled c -> settled (run c l).
Proof.
  induction l as [|i l IH]; intros c H; [exact H|].
  rewrite run_cons. apply IH, update_settled, H.
Qed.

Lemma run_completed_settled (l : list Input) :
  forall c, In SyncCompleted l -> settled (run c l).
Proof.
  induction l as [|i l IH]; intros c H; [destruct H|].
  rewrite run_cons. destruct H as [->|H].
  - apply run_settled, update_completed_settled.
  - apply IH, H.
Qed.

(** A settled controller ignores the downloader's start and failure. *)
Lemma settled_ignores (c : Controller) (ev : Input) :
  settled c -> ev = SyncStarted \/ ev = SyncFailed -> update c ev = c.
Proof.
  intros Hs Hev. unfold update, step.
  destruct (closed c) eqn:Hc; [reflexivity|].
  destruct Hs as [He|Hs]; [|congruence].
  destruct Hev as [->| ->]; now rewrite He.
Qed.

Lemma update_closed_false (c : Controller) (i : Input) :
  i <> Close -> closed c = false -> closed (update c i) = false.
Proof.
  intros Hi Hc. unfold update, step, failed_resumes.
  destruct i; split_ifs; congruence.
Qed.

Lemma run_closed_false (l : list Input) :
  forall c, ~ In Close l -> closed c = false -> closed (run c l) = false.
Proof.
  induction l as [|i l IH]; intros c Hn Hc; [exact Hc|].
  rewrite run_cons. apply IH.
  - intros H. apply Hn. now right.
  - apply update_closed_false; [|exact Hc].
    intros ->. apply Hn. now left.
Qed.

Lemma gated_after_SyncStarted (c : Controller) :
  wf c -> everSynced c = false -> gated (update c SyncStarted).
Proof.
  intros Hw He. unfold update, step.
  destruct (closed c) eqn:Hc.
  - split; [exact He|]. split; [|now left].
    pose proof (wf_closed_stopped Hw Hc) as Hm. unfold Mining in Hm.
    destruct (state c); [reflexivity|discriminate].
  - rewrite He. split; [exact He|]. split; [reflexivity|now right].
Qed.

Lemma gated_start_stop (c : Controller) (i : Input) :
  gated c -> i = Start \/ i = Stop -> gated (update c i).
Proof.
  intros Hg Hi. unfold update, step.
  destruct (closed c) eqn:Hc; [exact Hg|].
  destruct Hg as (He & Hst & Hcs).
  destruct Hcs as [Hcs|Hy]; [congruence|].
  destruct Hi as [->| ->]; simpl.
  - rewrite He, Hy; simpl. split; [exact He|]. split; [exact Hst|now right].
  - split; [exact He|]. split; [reflexivity|now right].
Qed.

Lemma gated_run (l : list Input) :
  forall c, gated c -> Forall (fun i => i = Start \/ i = Stop) l -> gated (run c l).
Proof.
  induction l as [|i l IH]; intros c Hg Hl; [exact Hg|].
  rewrite run_cons. inversion Hl; subst.
  apply IH; [apply gated_start_stop|]; assumption.
Qed.

Lemma closed_start_stop (l : list Input) :
  forall c, closed c = false -> Forall (fun i => i = Start \/ i = Stop) l ->
            closed (run c l) = false.
Proof.
  intros c Hc Hl. apply run_closed_false; [|exact Hc].
  intros Hin. rewrite Forall_forall in Hl.
  destruct (Hl _ Hin); discriminate.
Qed.

(** The model meets every scenario of [miner_test.go]. *)
Lemma update_passes_test_suite :
  forallb (passes update New) test_suite = true.
Proof. reflexivity. Qed.

(** The transition policy's sentence on [SyncFailed], taken literally, fails
    [TestMinerDownloaderFirstFails]. *)
Lemma update_literal_fails_first_fails :
  passes update_literal New TestMinerDownloaderFirstFails = false.
Proof. reflexivity. Qed.

End MinerFacts.

(** C1 (sticky-sync invariant).  In every sequence of commands and events
    [pre] that holds a [SyncCompleted], a [SyncStarted] or [SyncFailed] that
    follows leaves [Mining()] as it was. *)
Theorem sticky_sync_invariant (pre : list Miner.Input) (ev : Miner.Input) :
  In Miner.SyncCompleted pre ->
  ev = Miner.SyncStarted \/ ev = Miner.SyncFailed ->
  Miner.Mining (Miner.run Miner.New (pre ++ [ev]))
  = Miner.Mining (Miner.run Miner.New pre).
Proof.
  intros Hin Hev. rewrite run_app. simpl.
  rewrite settled_ignores; [reflexivity| |exact Hev].
  apply run_completed_settled, Hin.
Qed.

Lemma sticky_sync_invariant_witness :
  Miner.Mining (Miner.run Miner.New
    ([Miner.Start; Miner.SyncStarted; Miner.SyncCompleted] ++ [Miner.SyncStarted]))
  = Miner.Mining (Miner.run Miner.New
      [Miner.Start; Miner.SyncStarted; Miner.SyncCompleted]).
Proof.
  apply sticky_sync_invariant.
  - simpl. right. right. left. reflexivity.
  - left. reflexivity.
Defined.

(** C2 (first-sync gating).  In every execution [pre] without a
    [SyncCompleted], a [SyncStarted] forces [Mining() == false], whatever
    [Start()] came before; and a [Start()] issued while that sync is in
    progress (after any further [Start()] and [Stop()]) leaves
    [Mining() == false] and records the intent. *)
Theorem first_sync_gating (pre mid : list Miner.Input) :
  ~ In Miner.SyncCompleted pre ->
  Forall (fun i => i = Miner.Start \/ i = Miner.Stop) mid ->
  Miner.Mining (Miner.run Miner.New (pre ++ [Miner.SyncStarted])) = false
  /\ Miner.Mining
       (Miner.run Miner.New (pre ++ Miner.SyncStarted :: mid ++ [Miner.Start]))
     = false
  /\ (~ In Miner.Close pre ->
      Miner.intent
        (Miner.run Miner.New (pre ++ Miner.SyncStarted :: mid ++ [Miner.Start]))
      = true).
Proof.
  intros Hn Hmid.
  pose proof (run_wf pre wf_New) as Hw.
  pose proof (run_everSynced_false pre Miner.New Hn eq_refl) as He.
  pose proof (gated_after_SyncStarted Hw He) as Hg.
  split; [|split].
  - rewrite run_app. simpl. destruct Hg as (_ & Hst & _).
    unfold Miner.Mining. now rewrite Hst.
  - rewrite run_app, run_cons, run_app. simpl.
    assert (Hg' : Miner.gated (Miner.update
              (Miner.run (Miner.update (Miner.run Miner.New pre) Miner.SyncStarted) mid)
              Miner.Start)).
    { apply gated_start_stop; [apply gated_run; assumption|now left]. }
    destruct Hg' as (_ & Hst & _). unfold Miner.Mining. now rewrite Hst.
  - intros Hc. rewrite run_app, run_cons, run_app. simpl.
    pose proof (run_closed_false pre Miner.New Hc eq_refl) as Hc1.
    assert (Hc2 : Miner.closed
              (Miner.update (Miner.run Miner.New pre) Miner.SyncStarted) = false).
    { apply update_closed_false; [discriminate|exact Hc1]. }
    assert (Hc3 : Miner.closed
              (Miner.run (Miner.update (Miner.run Miner.New pre) Miner.SyncStarted) mid)
              = false) by (apply closed_start_stop; assumption).
    assert (Hg3 : Miner.gated
              (Miner.run (Miner.update (Miner.run Miner.New pre) Miner.SyncStarted) mid))
      by (apply gated_run; assumption).
    destruct Hg3 as (He3 & _ & Hy).
    destruct Hy as [Hy|Hy]; [congruence|].
    unfold Miner.update at 1. unfold Miner.step.
    rewrite Hc3, He3, Hy. reflexivity.
Qed.

Lemma first_sync_gating_witness :
  Miner.Mining (Miner.run Miner.New ([Miner.Start] ++ [Miner.SyncStarted])) = false
  /\ Miner.Mining
       (Miner.run Miner.New
          ([Miner.Start] ++ Miner.SyncStarted :: [Miner.Stop] ++ [Miner.Start]))
     = false
  /\ (~ In Miner.Close [Miner.Start] ->
      Miner.intent
        (Miner.run Miner.New
           ([Miner.Start] ++ Miner.SyncStarted :: [Miner.Stop] ++ [Miner.Start]))
      = true).
Proof.
  apply (@first_sync_gating [Miner.Start] [Miner.Stop]).
  - simpl. intros [H|H]; [discriminate|exact H].
  - constructor; [now right|constructor].
Defined.

(** C3, as the claim states it, fails: after [Start()] and [SyncStarted] the
    sticky flag is unset, and the [SyncFailed] that follows leaves
    [Mining() == true] ([TestMinerDownloaderFirstFails], [miner_test.go:87-96]). *)
Lemma sync_failed_first_counterexample :
  Miner.everSynced (Miner.run Miner.New [Miner.Start; Miner.SyncStarted]) = false
  /\ Miner.Mining
       (Miner.update (Miner.run Miner.New [Miner.Start; Miner.SyncStarted])
                     Miner.SyncFailed)
     = true.
Proof. split; reflexivity. Qed.

(** C3 (amended).  A [SyncFailed] delivered before any [SyncCompleted] ends
    the sync in progress and resumes mining exactly when a [Start()] intent
    is on record (and the controller is not closed); the sticky flag stays
    unset, so the next [SyncStarted] stops mining again. *)
Theorem sync_failed_before_first_sync (pre : list Miner.Input) :
  ~ In Miner.SyncCompleted pre ->
  let c := Miner.run Miner.New pre in
  let c' := Miner.update c Miner.SyncFailed in
  Miner.Mining c' = Miner.intent c && negb (Miner.closed c)
  /\ Miner.everSynced c' = false
  /\ Miner.Mining (Miner.update c' Miner.SyncStarted) = false.
Proof.
  intros Hn c c'.
  assert (Hw : Miner.wf c) by (apply run_wf, wf_New).
  assert (He : Miner.everSynced c = false)
    by (apply run_everSynced_false; [exact Hn|reflexivity]).
  assert (He' : Miner.everSynced c' = false)
    by (apply update_everSynced_false; [discriminate|exact He]).
  assert (Hw' : Miner.wf c') by (apply update_wf, Hw).
  split; [|split].
  - subst c'. unfold Miner.update, Miner.step.
    destruct (Miner.closed c) eqn:Hc.
    + rewrite andb_false_r. apply wf_closed_stopped; assumption.
    + rewrite He, andb_true_r. unfold Miner.failed_resumes. simpl.
      destruct (Miner.intent c) eqn:Hi; [reflexivity|].
      unfold Miner.Mining. simpl.
      destruct (Miner.state c) eqn:Hs; [reflexivity|].
      destruct Hw as [Hri _ _]. rewrite (Hri Hs) in Hi. discriminate.
  - exact He'.
  - destruct (gated_after_SyncStarted Hw' He') as (_ & Hst & _).
    unfold Miner.Mining. now rewrite Hst.
Qed.

Lemma sync_failed_before_first_sync_witness :
  let c := Miner.run Miner.New [Miner.Start; Miner.SyncStarted] in
  let c' := Miner.update c Miner.SyncFailed in
  Miner.Mining c' = Miner.intent c && negb (Miner.closed c)
  /\ Miner.everSynced c' = false
  /\ Miner.Mining (Miner.update c' Miner.SyncStarted) = false.
Proof.
  apply (@sync_failed_before_first_sync [Miner.Start; Miner.SyncStarted]).
  simpl. intros [H|[H|H]]; [discriminate|discriminate|exact H].
Defined.

(* ================================================================== *)
(** * Properties of the whitelist store *)
(* ================================================================== *)

Section WhitelistFacts.

Import Whitelist.
Local Open Scope Z_scope.

Lemma same_checkpoint_refl (c : Checkpoint) : same_checkpoint c c = true.
Proof. unfold same_checkpoint. now rewrite !Z.eqb_refl. Qed.

(** What the store holds once a pair was offered: that pair, or a record
    with a higher block number. *)
Lemma latest_after_ProcessCheckpoint (n h : Z) (s : Service) :
  (exists top, latest (ProcessCheckpoint n h s) = Some top
               /\ (n < blockNumber top
                   \/ top = {| blockNumber := n; blockHash := h |}))
  \/ (maxCapacity s = O /\ checkpoints (ProcessCheckpoint n h s) = []).
Proof.
  unfold ProcessCheckpoint.
  destruct (latest s) as [top|] eqn:Hl.
  - destruct (n <? blockNumber top) eqn:Hlt.
    + left. exists top. split; [exact Hl|]. left. now apply Z.ltb_lt.
    + destruct (same_checkpoint _ top) eqn:Hs.
      * left. exists top. split; [exact Hl|]. right.
        unfold same_checkpoint in Hs. simpl in Hs.
        apply andb_true_iff in Hs. destruct Hs as [H1 H2].
        apply Z.eqb_eq in H1, H2. destruct top; simpl in *. congruence.
      * unfold accept, latest. simpl.
        destruct (maxCapacity s) as [|k]; [now right|].
        left. eexists. split; [reflexivity|]. now right.
  - unfold accept, latest. simpl.
    destruct (maxCapacity s) as [|k]; [now right|].
    left. eexists. split; [reflexivity|]. now right.
Qed.

Lemma maxCapacity_ProcessCheckpoint (n h : Z) (s : Service) :
  maxCapacity (ProcessCheckpoint n h s) = maxCapacity s.
Proof.
  unfold ProcessCheckpoint.
  destruct (latest s) as [top|]; [|reflexivity].
  destruct (n <? blockNumber top); [reflexivity|].
  destruct (same_checkpoint _ top); reflexivity.
Qed.

Lemma ProcessCheckpoint_lower (n h m h' : Z) (s : Service) :
  m < n ->
  ProcessCheckpoint m h' (ProcessCheckpoint n h s) = ProcessCheckpoint n h s.
Proof.
  intros Hlt.
  destruct (latest_after_ProcessCheckpoint n h s) as [(top & Hl & Htop)|[Hcap Hnil]].
  - unfold ProcessCheckpoint at 1. rewrite Hl.
    assert (Hm : (m <? blockNumber top) = true).
    { apply Z.ltb_lt. destruct Htop as [H| ->]; simpl; lia. }
    now rewrite Hm.
  - unfold ProcessCheckpoint at 1. unfold latest. rewrite Hnil. simpl.
    unfold accept. rewrite maxCapacity_ProcessCheckpoint, Hcap, Hnil. simpl.
    set (s' := ProcessCheckpoint n h s) in *.
    assert (Hc : maxCapacity s' = O)
      by (subst s'; rewrite maxCapacity_ProcessCheckpoint; exact Hcap).
    destruct s' as [cap l]. simpl in *. now subst.
Qed.

Lemma ProcessCheckpoint_again (n h : Z) (s : Service) :
  ProcessCheckpoint n h (ProcessCheckpoint n h s) = ProcessCheckpoint n h s.
Proof.
  destruct (latest_after_ProcessCheckpoint n h s) as [(top & Hl & Htop)|[Hcap Hnil]].
  - unfold ProcessCheckpoint at 1. rewrite Hl.
    destruct Htop as [H| ->].
    + apply Z.ltb_lt in H. now rewrite H.
    + simpl. rewrite Z.ltb_irrefl, same_checkpoint_refl. reflexivity.
  - unfold ProcessCheckpoint at 1. unfold latest. rewrite Hnil. simpl.
    unfold accept. rewrite maxCapacity_ProcessCheckpoint, Hcap, Hnil. simpl.
    set (s' := ProcessCheckpoint n h s) in *.
    assert (Hc : maxCapacity s' = O)
      by (subst s'; rewrite maxCapacity_ProcessCheckpoint; exact Hcap).
    destruct s' as [cap l]. simpl in *. now subst.
Qed.

Lemma highest_ProcessCheckpoint (n h : Z) (s : Service) :
  (0 < maxCapacity s)%nat -> 0 <= n ->
  highest s <= highest (ProcessCheckpoint n h s).
Proof.
  intros Hcap Hn. unfold ProcessCheckpoint, highest.
  destruct (latest s) as [top|] eqn:Hl.
  - destruct (n <? blockNumber top) eqn:Hlt; [rewrite Hl; lia|].
    destruct (same_checkpoint _ top); [rewrite Hl; lia|].
    unfold accept, latest. simpl.
    destruct (maxCapacity s); [lia|]. simpl. apply Z.ltb_ge in Hlt. lia.
  - unfold accept, latest. simpl.
    destruct (maxCapacity s); [lia|]. simpl. lia.
Qed.

End WhitelistFacts.

(** C7 (monotonic checkpoint installation).  Installing (100, H1) and then
    (50, H2) in the store the service creates leaves it holding (100, H1);
    whatever the store holds, a call with a block number lower than the one
    just offered changes nothing, installing the same pair again changes
    nothing, and the highest block number held never decreases. *)
Theorem monotonic_checkpoint_installation :
  (forall H1 H2 : Z,
      Whitelist.latest
        (Whitelist.ProcessCheckpoint 50 H2
           (Whitelist.ProcessCheckpoint 100 H1 (Whitelist.NewService 10)))
      = Some {| Whitelist.blockNumber := 100; Whitelist.blockHash := H1 |})
  /\ (forall (s : Whitelist.Service) (n h m h' : Z),
         (m < n)%Z ->
         Whitelist.ProcessCheckpoint m h' (Whitelist.ProcessCheckpoint n h s)
         = Whitelist.ProcessCheckpoint n h s)
  /\ (forall (s : Whitelist.Service) (n h : Z),
         Whitelist.ProcessCheckpoint n h (Whitelist.ProcessCheckpoint n h s)
         = Whitelist.ProcessCheckpoint n h s)
  /\ (forall (s : Whitelist.Service) (n h : Z),
         (0 < Whitelist.maxCapacity s)%nat -> (0 <= n)%Z ->
         (Whitelist.highest s
          <= Whitelist.highest (Whitelist.ProcessCheckpoint n h s))%Z).
Proof.
  split; [|split; [|split]].
  - intros H1 H2. rewrite ProcessCheckpoint_lower by lia. reflexivity.
  - intros s n h m h' Hlt. apply ProcessCheckpoint_lower, Hlt.
  - intros s n h. apply ProcessCheckpoint_again.
  - intros s n h Hcap Hn. apply highest_ProcessCheckpoint; assumption.
Qed.

(* ================================================================== *)
(** * Properties of the Ethereum service *)
(* ================================================================== *)

Section EthFacts.

Import Eth.
Local Open Scope Z_scope.

Lemma made_app (w w' : Ethereum) (l : list (Z * Call)) :
  calls w' = calls w ++ l -> made w w' = l.
Proof.
  intros H. unfold made. rewrite H, skipn_app, skipn_all, Nat.sub_diag.
  reflexivity.
Qed.

Lemma made_refl (w : Ethereum) : made w w = [].
Proof. apply made_app. now rewrite app_nil_r. Qed.

Lemma set_calls_same (w : Ethereum) : set_calls (calls w) w = w.
Proof. now destruct w. Qed.

Lemma nth_error_middle (A : Type) (pre : list A) (x : A) (l : list A) :
  nth_error (pre ++ x :: l) (List.length pre) = Some x.
Proof. induction pre as [|y pre IH]; [reflexivity|exact IH]. Qed.

Lemma call_skip (R : Type) (c : Call) (w : Ethereum) :
  (call (R := R) c ;; skip) w
  = Next tt (set_calls (calls w ++ [(now w, c)]) w).
Proof. reflexivity. Qed.

(** The installation loop of [handleWhitelistCheckpoint] on parallel arrays:
    one [ProcessCheckpoint] per index, in index order. *)
Lemma for_range_installs (R : Type) (nums : list Z) :
  forall (hashes pre_n pre_h : list Z) (w : Ethereum),
    List.length nums = List.length hashes ->
    List.length pre_n = List.length pre_h ->
    for_range (R := R) (List.length nums) (List.length pre_n)
      (fun i =>
         match nth_error (pre_n ++ nums) i, nth_error (pre_h ++ hashes) i with
         | Some n, Some h => call (ProcessCheckpoint n h) ;; skip
         | _, _ => panic
         end) w
    = Next tt (set_calls (calls w ++ installs (now w) nums hashes) w).
Proof.
  induction nums as [|n nums IH]; intros hashes pre_n pre_h w Hlen Hpre.
  - simpl. unfold skip, installs. destruct hashes; [|discriminate].
    simpl. now rewrite app_nil_r, set_calls_same.
  - destruct hashes as [|h hashes]; [discriminate|].
    simpl for_range. unfold bind at 1.
    rewrite nth_error_middle.
    replace (nth_error (pre_h ++ h :: hashes) (List.length pre_n)) with (Some h)
      by (rewrite Hpre; symmetry; apply nth_error_middle).
    rewrite call_skip.
    specialize (IH hashes (pre_n ++ [n]) (pre_h ++ [h])).
    rewrite <- !app_assoc in IH. simpl in IH.
    rewrite !length_app in IH. simpl in IH.
    rewrite !Nat.add_1_r in IH.
    rewrite IH; [|now injection Hlen|now rewrite Hpre].
    simpl. unfold installs. simpl. now rewrite <- app_assoc.
Qed.

(** [handleWhitelistCheckpoint] on a bor engine with a Heimdall client. *)
Lemma handleWhitelistCheckpoint_bor (ctx : Z) (first : bool) (a : FetchResult)
      (w : Ethereum) (hc : nat) :
  engine w = Bor (Some hc) ->
  List.length (blockNums a) = List.length (blockHashes a) ->
  handleWhitelistCheckpoint ctx first a w
  = Ret (match blockNums a with [] => fetchErr a | _ :: _ => None end)
        (set_now (now w + took a)
           (set_calls (calls w
                       ++ (now w, FetchWhitelistCheckpoints ctx first)
                       :: installs (now w + took a) (blockNums a) (blockHashes a))
                      w)).
Proof.
  intros He Hlen. unfold handleWhitelistCheckpoint.
  unfold bind at 1. unfold gets at 1. rewrite He.
  unfold bind at 1. unfold fetchWhitelistCheckpoints, bind, call, gets. simpl.
  destruct (blockNums a) as [|n nums] eqn:Hn.
  - destruct (blockHashes a); [|discriminate]. reflexivity.
  - simpl Nat.eqb. unfold when, skip.
    pose proof (@for_range_installs (option error) (n :: nums) (blockHashes a) [] []) as H.
    simpl List.length in H. simpl app in H.
    rewrite H; [|exact Hlen|reflexivity].
    unfold ret. simpl. now rewrite <- app_assoc.
Qed.

(** A cycle on an engine that cannot whitelist: nothing is fetched. *)
Lemma cycle_capability_error (R : Type) (first : bool) (a : FetchResult)
      (w : Ethereum) (e : error) :
  capability_error (engine w) = Some e ->
  cycle (R := R) first a w
  = Next (Some e)
         (set_calls (calls w ++ [(now w, ContextWithTimeout whitelistTimeout);
                                 (now w, ContextCancel)]) w).
Proof.
  intros He. unfold cycle, handleWhitelistCheckpoint, invoke, bind, call, gets, ret.
  simpl.
  destruct (engine w) as [|[hc|]|inner| |id]; simpl in He; try discriminate;
    injection He as <-; simpl; now rewrite <- app_assoc.
Qed.

(** A cycle on a bor engine with a Heimdall client. *)
Lemma cycle_bor (R : Type) (first : bool) (a : FetchResult)
      (w : Ethereum) (hc : nat) :
  engine w = Bor (Some hc) ->
  List.length (blockNums a) = List.length (blockHashes a) ->
  cycle (R := R) first a w
  = Next (match blockNums a with [] => fetchErr a | _ :: _ => None end)
         (set_now (now w + took a)
            (set_calls (calls w ++ cycle_calls first a (now w)) w)).
Proof.
  intros He Hlen. unfold cycle.
  unfold bind at 1. unfold call at 1.
  unfold bind at 1. unfold gets at 1.
  unfold bind at 1. unfold invoke.
  erewrite handleWhitelistCheckpoint_bor; [|exact He|exact Hlen].
  unfold bind, call. simpl. unfold cycle_calls.
  rewrite <- !app_assoc. reflexivity.
Qed.

(** ** The [select] of the loop *)

Ltac decide_leb :=
  unfold set_now; cbn [now closeCh orb andb];
  repeat match goal with
         | |- context [(?a <=? ?b)%Z] => destruct (Z.leb_spec a b); try lia
         end;
  cbn [now closeCh orb andb];
  try match goal with H : closeCh _ = false |- _ => rewrite ?H end;
  cbn [orb andb]; try reflexivity.

Lemma select_closed (R : Type) (c T : Z) (p : bool) (w : Ethereum) :
  closeCh w = false -> now w < T -> c <= now w ->
  select (R := R) (Some c) T p w = Next CaseClose w.
Proof.
  intros Hc HT Hcl. unfold select, closed_now, pick. rewrite Hc. cbn [orb].
  decide_leb.
Qed.

Lemma select_wakes_on_close (R : Type) (c T : Z) (p : bool) (w : Ethereum) :
  closeCh w = false -> now w < c -> c < T ->
  select (R := R) (Some c) T p w = Next CaseClose (set_now c w).
Proof.
  intros Hc Hn HT. unfold select, closed_now, pick. rewrite Hc. cbn [orb].
  rewrite Z.min_r by lia. decide_leb.
Qed.

Lemma select_wakes_on_tick (R : Type) (c T : Z) (p : bool) (w : Ethereum) :
  closeCh w = false -> now w < T -> T < c ->
  select (R := R) (Some c) T p w = Next CaseTick (set_now T w).
Proof.
  intros Hc Hn HT. unfold select, closed_now, pick. rewrite Hc. cbn [orb].
  rewrite Z.min_l by lia. decide_leb.
Qed.

Lemma select_wakes_on_both (R : Type) (T : Z) (p : bool) (w : Ethereum) :
  closeCh w = false -> now w < T ->
  select (R := R) (Some T) T p w
  = Next (if p then CaseTick else CaseClose) (set_now T w).
Proof.
  intros Hc Hn. unfold select, closed_now, pick. rewrite Hc. cbn [orb].
  rewrite Z.min_l by lia. decide_leb.
Qed.

Lemma select_never_closed (R : Type) (T : Z) (p : bool) (w : Ethereum) :
  closeCh w = false -> now w < T ->
  select (R := R) None T p w = Next CaseTick (set_now T w).
Proof.
  intros Hc Hn. unfold select, closed_now, pick. rewrite Hc. cbn [orb].
  decide_leb.
Qed.

Lemma tick_after_on_time (T : Z) : tick_after T T = T + tickerPeriod.
Proof.
  unfold tick_after. rewrite Z.sub_diag. unfold tickerPeriod, Second. simpl. lia.
Qed.

(** One turn of the loop that takes the tick at its instant [T]. *)
Lemma whitelistLoop_tick (closeAt : option Z) (T : Z) (turn : Turn)
      (rest : list Turn) (w : Ethereum) (hc : nat) :
  select (R := unit) closeAt T (preferTick turn) w = Next CaseTick (set_now T w) ->
  engine w = Bor (Some hc) ->
  good_answer (answer turn) ->
  exists w1,
    whitelistLoop closeAt T (turn :: rest) w
    = whitelistLoop closeAt (T + tickerPeriod) rest w1
    /\ calls w1 = calls w ++ cycle_calls false (answer turn) T
    /\ now w1 = T + took (answer turn)
    /\ engine w1 = engine w
    /\ closeCh w1 = closeCh w.
Proof.
  intros Hsel He [Hlen _]. simpl whitelistLoop.
  unfold bind at 1. rewrite Hsel.
  unfold bind at 1. unfold gets at 1. simpl now.
  unfold bind at 1.
  erewrite cycle_bor; [|exact He|exact Hlen].
  rewrite tick_after_on_time.
  destruct (match blockNums (answer turn) with
            | [] => fetchErr (answer turn)
            | _ :: _ => None
            end) as [e|];
    unfold bind, log, skip; eexists; (split; [reflexivity|]); simpl;
    repeat split; reflexivity.
Qed.

(** The constants of the schedule. *)
Ltac constants :=
  unfold good_answer, tickerPeriod, whitelistTimeout, Second in *.

(** The loop when [closeCh] is closed at the instant [c]: it returns, after
    [k] cycles, one per tick from [T] on, none of them started after [c] and
    none of the ticks before [c] left out; it returns at [c], or at the end
    of the cycle that was under way or was started at [c]. *)
Lemma whitelistLoop_exits (c : Z) (hc : nat) (turns : list Turn) :
  forall (T : Z) (w : Ethereum),
    closeCh w = false ->
    engine w = Bor (Some hc) ->
    Forall (fun t => good_answer (answer t)) turns ->
    now w < T ->
    c < T + (Z.of_nat (List.length turns) - 1) * tickerPeriod ->
    turns <> [] ->
    exists (k : nat) (w' : Ethereum),
      whitelistLoop (Some c) T turns w = Ret tt w'
      /\ calls w' = calls w ++ tick_cycles T (map answer (firstn k turns))
      /\ ((k = O /\ now w' = Z.max c (now w))
          \/ ((0 < k)%nat
              /\ T + (Z.of_nat k - 1) * tickerPeriod <= c
              /\ c <= now w' <= c + whitelistTimeout))
      /\ c <= T + Z.of_nat k * tickerPeriod.
Proof.
  induction turns as [|turn rest IH]; intros T w Hc He Hgood HT Hlen Hne;
    [contradiction|].
  assert (Hstop : forall w0, calls w0 = calls w -> now w0 = Z.max c (now w) ->
            c <= T ->
            whitelistLoop (Some c) T (turn :: rest) w = Ret tt w0 ->
            exists (k : nat) (w' : Ethereum),
              whitelistLoop (Some c) T (turn :: rest) w = Ret tt w'
              /\ calls w' = calls w ++ tick_cycles T (map answer (firstn k (turn :: rest)))
              /\ ((k = O /\ now w' = Z.max c (now w))
                  \/ ((0 < k)%nat
                      /\ T + (Z.of_nat k - 1) * tickerPeriod <= c
                      /\ c <= now w' <= c + whitelistTimeout))
              /\ c <= T + Z.of_nat k * tickerPeriod).
  { intros w0 Hcalls Hnow HcT Hrun. exists O, w0. split; [exact Hrun|].
    split; [|split].
    - simpl. now rewrite app_nil_r.
    - left. now split.
    - simpl. lia. }
  assert (Htick : select (R := unit) (Some c) T (preferTick turn) w
                  = Next CaseTick (set_now T w) ->
                  T <= c ->
            exists (k : nat) (w' : Ethereum),
              whitelistLoop (Some c) T (turn :: rest) w = Ret tt w'
              /\ calls w' = calls w ++ tick_cycles T (map answer (firstn k (turn :: rest)))
              /\ ((k = O /\ now w' = Z.max c (now w))
                  \/ ((0 < k)%nat
                      /\ T + (Z.of_nat k - 1) * tickerPeriod <= c
                      /\ c <= now w' <= c + whitelistTimeout))
              /\ c <= T + Z.of_nat k * tickerPeriod).
  { intros Hsel HTc.
    inversion Hgood as [|? ? Hturn Hrest]; subst.
    destruct (@whitelistLoop_tick (Some c) T turn rest w hc Hsel He Hturn)
      as (w1 & Hstep & Hcalls1 & Hnow1 & He1 & Hc1).
    assert (Hrest_ne : rest <> []).
    { intros ->. simpl in Hlen. lia. }
    destruct (IH (T + tickerPeriod) w1) as (k & w' & Hrun & Hcalls & Hk & Hlow).
    - now rewrite Hc1.
    - now rewrite He1.
    - exact Hrest.
    - rewrite Hnow1. destruct Hturn as [_ Htook]. constants. lia.
    - simpl List.length in Hlen. rewrite Nat2Z.inj_succ in Hlen. constants. lia.
    - exact Hrest_ne.
    - exists (S k), w'. split; [now rewrite Hstep|]. split; [|split].
      + rewrite Hcalls, Hcalls1. simpl. now rewrite <- app_assoc.
      + right. split; [lia|]. rewrite Nat2Z.inj_succ.
        destruct Hturn as [_ Htook].
        destruct Hk as [[-> Hnow]|(Hpos & Hle & Hexit)].
        * rewrite Hnow, Hnow1. constants. simpl. lia.
        * split; [constants; lia|exact Hexit].
      + rewrite Nat2Z.inj_succ. constants. lia. }
  destruct (Z_le_gt_dec c (now w)) as [Hfired|Hlater].
  - (* closed before the select *)
    apply (Hstop w); [reflexivity|lia|lia|].
    simpl whitelistLoop. unfold bind at 1.
    now rewrite select_closed by assumption.
  - destruct (Z.lt_trichotomy c T) as [Hlt|[Heq|Hgt]].
    + (* closed during the wait *)
      apply (Hstop (set_now c w)); [reflexivity|simpl; lia|lia|].
      simpl whitelistLoop. unfold bind at 1.
      now rewrite select_wakes_on_close by (assumption || lia).
    + (* closed at the instant of the tick *)
      subst c. destruct (preferTick turn) eqn:Hp.
      * apply Htick; [|lia].
        now rewrite select_wakes_on_both by assumption.
      * apply (Hstop (set_now T w)); [reflexivity|simpl; lia|lia|].
        simpl whitelistLoop. unfold bind at 1. rewrite Hp.
        now rewrite select_wakes_on_both by assumption.
    + (* the tick comes first *)
      apply Htick; [|lia].
      now rewrite select_wakes_on_tick by (assumption || lia).
Qed.

(** The loop while [closeCh] is never closed: one cycle per turn, one turn
    per tick. *)
Lemma whitelistLoop_never_closed (hc : nat) (turns : list Turn) :
  forall (T : Z) (w : Ethereum),
    closeCh w = false ->
    engine w = Bor (Some hc) ->
    Forall (fun t => good_answer (answer t)) turns ->
    now w < T ->
    exists w',
      whitelistLoop None T turns w = Blocked w'
      /\ calls w' = calls w ++ tick_cycles T (map answer turns).
Proof.
  induction turns as [|turn rest IH]; intros T w Hc He Hgood HT.
  - exists w. split; [reflexivity|]. simpl. now rewrite app_nil_r.
  - inversion Hgood as [|? ? Hturn Hrest]; subst.
    assert (Hsel : select (R := unit) None T (preferTick turn) w
                   = Next CaseTick (set_now T w))
      by (now apply select_never_closed).
    destruct (@whitelistLoop_tick None T turn rest w hc Hsel He Hturn)
      as (w1 & Hstep & Hcalls1 & Hnow1 & He1 & Hc1).
    destruct (IH (T + tickerPeriod) w1) as (w' & Hrun & Hcalls).
    + now rewrite Hc1.
    + now rewrite He1.
    + exact Hrest.
    + rewrite Hnow1. destruct Hturn as [_ Htook]. constants. lia.
    + exists w'. split; [now rewrite Hstep|].
      rewrite Hcalls, Hcalls1. simpl. now rewrite <- app_assoc.
Qed.

(** The service up to its loop, when the first cycle does not make it give
    up. *)
Lemma service_reaches_loop (s : Schedule) (w : Ethereum) (hc : nat) :
  closed_now (closeAt s) w = false ->
  engine w = Bor (Some hc) ->
  good_answer (firstAnswer s) ->
  permanent (cycle_error (firstAnswer s)) = false ->
  exists w1,
    startCheckpointWhitelistService s w
    = defer TickerStop
        (whitelistLoop (closeAt s)
           (now w + took (firstAnswer s) + tickerPeriod) (turns s)) w1
    /\ calls w1 = calls w ++ cycle_calls true (firstAnswer s) (now w)
                  ++ [(now w + took (firstAnswer s), NewTicker tickerPeriod)]
    /\ now w1 = now w + took (firstAnswer s)
    /\ engine w1 = engine w
    /\ closeCh w1 = closeCh w.
Proof.
  intros Hclosed He [Hlen _] Hperm.
  unfold startCheckpointWhitelistService.
  unfold bind at 1. unfold gets at 1. rewrite Hclosed.
  unfold bind at 1. unfold when at 1. unfold skip at 1.
  unfold bind at 1.
  erewrite cycle_bor; [|exact He|exact Hlen].
  fold (cycle_error (firstAnswer s)).
  destruct (cycle_error (firstAnswer s)) as [e|] eqn:Herr.
  - simpl in Hperm. unfold bind at 1. unfold bind at 1. rewrite Hperm.
    unfold when, skip, log. unfold bind at 1. unfold call.
    unfold defer, bind, gets. simpl.
    eexists. split; [reflexivity|]. unfold cycle_calls.
    repeat (simpl; rewrite <- ?app_assoc). repeat split; reflexivity.
  - unfold bind at 1. unfold skip at 1. unfold bind at 1. unfold call.
    unfold defer, bind, gets. simpl.
    eexists. split; [reflexivity|]. unfold cycle_calls.
    repeat (simpl; rewrite <- ?app_assoc). repeat split; reflexivity.
Qed.

End EthFacts.

(** Unfolds the statements of a function body. *)
Ltac run_body :=
  unfold Eth.bind, Eth.gets, Eth.when, Eth.call, Eth.log, Eth.skip, Eth.ret,
    Eth.Find, Eth.IsMining, Eth.Etherbase, Eth.close_chan, Eth.invoke,
    Eth.panic in *;
  simpl in *.

(** C4 (StartMining failure atomicity).  When mining is not running and
    either no etherbase is configured, or the process is not authorized, the
    engine is clique, clique inside beacon, or bor, and no wallet is found
    for the etherbase, [StartMining] returns an error; the calls it made are
    the thread update (if the engine has one), the gas price and at most one
    wallet lookup: the worker is not started, [Mining()] stays false and
    [acceptTxs] is untouched. *)
Theorem StartMining_failure_atomicity (threads : Z) (w : Eth.Ethereum) :
  Eth.IsMining w = false ->
  Eth.etherbase w = 0%Z
  \/ (Eth.authorized w = false
      /\ Eth.signer_capable (Eth.engine w) = true
      /\ fst (Eth.accounts w (Eth.etherbase w)) = None) ->
  exists err w',
    Eth.StartMining threads w = Eth.Ret (Some err) w'
    /\ Eth.IsMining w' = false
    /\ Eth.acceptTxs w' = Eth.acceptTxs w
    /\ Eth.authorized w' = Eth.authorized w
    /\ map snd (Eth.made w w')
       = (if Eth.threaded w then [Eth.SetThreads (Eth.engine_threads threads)] else [])
         ++ Eth.TxPoolSetGasPrice (Eth.gasPrice w)
         :: (if (Eth.etherbase w =? 0)%Z then []
             else [Eth.AccountManagerFind (Eth.etherbase w)])
    /\ ~ In Eth.GoMinerStart (map snd (Eth.made w w')).
Proof.
  intros Hm Hfail.
  set (expected :=
         (if Eth.threaded w then [Eth.SetThreads (Eth.engine_threads threads)] else [])
         ++ Eth.TxPoolSetGasPrice (Eth.gasPrice w)
         :: (if (Eth.etherbase w =? 0)%Z then []
             else [Eth.AccountManagerFind (Eth.etherbase w)])).
  set (Post := fun r : Eth.Res (option Eth.error) Empty_set =>
         exists err w',
           r = Eth.Ret (Some err) w'
           /\ Eth.IsMining w' = false
           /\ Eth.acceptTxs w' = Eth.acceptTxs w
           /\ Eth.authorized w' = Eth.authorized w
           /\ map snd (Eth.made w w') = expected
           /\ ~ In Eth.GoMinerStart (map snd (Eth.made w w'))).
  change (Post (Eth.StartMining threads w)).
  assert (Hdone : forall (err : Eth.error) (w' : Eth.Ethereum) (l : list (Z * Eth.Call)),
            Eth.mining w' = false -> Eth.acceptTxs w' = Eth.acceptTxs w ->
            Eth.authorized w' = Eth.authorized w ->
            Eth.calls w' = Eth.calls w ++ l ->
            map snd l = expected ->
            Post (Eth.Ret (Some err) w')).
  { intros err w' l H1 H2 H3 H4 H5. exists err, w'.
    rewrite (@made_app _ _ _ H4), H5.
    repeat (split; [solve [assumption | reflexivity]|]).
    subst expected.
    destruct (Eth.threaded w), (Eth.etherbase w =? 0)%Z; simpl;
      intuition discriminate. }
  clearbody Post.
  unfold Eth.StartMining. run_body. subst expected.
  destruct (Eth.threaded w) eqn:Ht; simpl; rewrite Hm; simpl;
    destruct (Eth.etherbase w =? 0)%Z eqn:Hz; simpl.
  1, 3: eapply Hdone; simpl;
    [assumption|reflexivity|reflexivity|rewrite <- ?app_assoc; reflexivity|reflexivity].
  all: destruct Hfail as [H0|(Ha & Hs & Hf)];
    [apply Z.eqb_neq in Hz; contradiction|];
    rewrite Ha; simpl;
    destruct (Eth.accounts w (Eth.etherbase w)) as [wallet err] eqn:Hacc;
    simpl in Hf; subst wallet;
    destruct (Eth.engine w) as [|hc|inner| |id] eqn:He; try discriminate Hs;
    try (destruct inner; try discriminate Hs); simpl; rewrite ?Hacc; simpl;
    (eapply Hdone; simpl;
     [assumption|reflexivity|reflexivity|rewrite <- ?app_assoc; reflexivity|reflexivity]).
Qed.

Lemma StartMining_failure_atomicity_witness :
  exists err w',
    Eth.StartMining 0%Z (Eth.node Eth.Clique 7%Z) = Eth.Ret (Some err) w'
    /\ Eth.IsMining w' = false
    /\ Eth.acceptTxs w' = Eth.acceptTxs (Eth.node Eth.Clique 7%Z)
    /\ Eth.authorized w' = Eth.authorized (Eth.node Eth.Clique 7%Z)
    /\ map snd (Eth.made (Eth.node Eth.Clique 7%Z) w')
       = (if Eth.threaded (Eth.node Eth.Clique 7%Z)
          then [Eth.SetThreads (Eth.engine_threads 0%Z)] else [])
         ++ Eth.TxPoolSetGasPrice (Eth.gasPrice (Eth.node Eth.Clique 7%Z))
         :: (if (Eth.etherbase (Eth.node Eth.Clique 7%Z) =? 0)%Z then []
             else [Eth.AccountManagerFind (Eth.etherbase (Eth.node Eth.Clique 7%Z))])
    /\ ~ In Eth.GoMinerStart (map snd (Eth.made (Eth.node Eth.Clique 7%Z) w')).
Proof.
  apply (StartMining_failure_atomicity 0%Z (Eth.node Eth.Clique 7%Z)).
  - reflexivity.
  - right. repeat split; reflexivity.
Defined.

(** C10 (StartMining while already mining).  While [Mining()] is true,
    [StartMining(n)] returns nil; the state it leaves is the one it found,
    but for the call of [SetThreads] (with [n == 0] mapped to [-1]) and the
    log line that announces it when the engine has [SetThreads]: no lookup of
    the etherbase or of a wallet, no [Authorize], no change of the authorized
    flag, of the etherbase, of the gas price or of [acceptTxs]. *)
Theorem StartMining_while_mining (n : Z) (w : Eth.Ethereum) :
  Eth.IsMining w = true ->
  exists w',
    Eth.StartMining n w = Eth.Ret None w'
    /\ map snd (Eth.made w w')
       = (if Eth.threaded w
          then [Eth.SetThreads (if (n =? 0)%Z then (-1)%Z else n)]
          else [])
    /\ Eth.authorized w' = Eth.authorized w
    /\ Eth.etherbase w' = Eth.etherbase w
    /\ Eth.gasPrice w' = Eth.gasPrice w
    /\ Eth.acceptTxs w' = Eth.acceptTxs w
    /\ Eth.mining w' = Eth.mining w
    /\ Eth.engine w' = Eth.engine w
    /\ Eth.now w' = Eth.now w
    /\ Eth.logs w'
       = Eth.logs w
         ++ (if Eth.threaded w then [Eth.LogInfo "Updated mining threads"] else []).
Proof.
  intros Hm. unfold Eth.StartMining. run_body.
  destruct (Eth.threaded w) eqn:Ht; simpl; rewrite Hm; simpl;
    eexists; (split; [reflexivity|]); simpl;
    (split; [|repeat split;
              first [reflexivity|assumption|symmetry; apply app_nil_r]]).
  - erewrite made_app; [|simpl; reflexivity]. reflexivity.
  - now rewrite made_refl.
Qed.

Lemma StartMining_while_mining_witness :
  exists w',
    Eth.StartMining 0%Z (Eth.mining_node Eth.Ethash 7%Z) = Eth.Ret None w'
    /\ map snd (Eth.made (Eth.mining_node Eth.Ethash 7%Z) w')
       = (if Eth.threaded (Eth.mining_node Eth.Ethash 7%Z)
          then [Eth.SetThreads (if (0 =? 0)%Z then (-1)%Z else 0%Z)]
          else [])
    /\ Eth.authorized w' = Eth.authorized (Eth.mining_node Eth.Ethash 7%Z)
    /\ Eth.etherbase w' = Eth.etherbase (Eth.mining_node Eth.Ethash 7%Z)
    /\ Eth.gasPrice w' = Eth.gasPrice (Eth.mining_node Eth.Ethash 7%Z)
    /\ Eth.acceptTxs w' = Eth.acceptTxs (Eth.mining_node Eth.Ethash 7%Z)
    /\ Eth.mining w' = Eth.mining (Eth.mining_node Eth.Ethash 7%Z)
    /\ Eth.engine w' = Eth.engine (Eth.mining_node Eth.Ethash 7%Z)
    /\ Eth.now w' = Eth.now (Eth.mining_node Eth.Ethash 7%Z)
    /\ Eth.logs w'
       = Eth.logs (Eth.mining_node Eth.Ethash 7%Z)
         ++ (if Eth.threaded (Eth.mining_node Eth.Ethash 7%Z)
             then [Eth.LogInfo "Updated mining threads"] else []).
Proof.
  apply (StartMining_while_mining 0%Z (Eth.mining_node Eth.Ethash 7%Z)).
  reflexivity.
Defined.

(** C5, as the claim states it, fails: the fetch verified one record and
    returned an error with it; [handleWhitelistCheckpoint] returns nil, not
    that error. *)
Lemma partial_failure_counterexample :
  Eth.fetchErr Eth.partial_answer = Some (Eth.ErrOther 2)
  /\ List.length (Eth.blockNums Eth.partial_answer) = 1%nat
  /\ Eth.result
       (Eth.handleWhitelistCheckpoint 30000000000 false Eth.partial_answer
          (Eth.node (Eth.Bor (Some O)) 1%Z))
     = Some None.
Proof. repeat split; reflexivity. Qed.

(** C5 (amended).  On a bor engine with a Heimdall client, when the fetch
    yields [n > 0] records (block numbers and hashes in parallel arrays),
    with or without an error, [handleWhitelistCheckpoint] calls
    [ProcessCheckpoint(blockNums[i], blockHashes[i])] for [i = 0..n-1] in that
    order, leaves none out, and returns nil; when [n == 0] it returns the
    fetch's error unchanged and installs nothing. *)
Theorem partial_failure_installation (ctx : Z) (first : bool)
        (a : Eth.FetchResult) (w : Eth.Ethereum) (hc : nat) :
  Eth.engine w = Eth.Bor (Some hc) ->
  List.length (Eth.blockNums a) = List.length (Eth.blockHashes a) ->
  exists w',
    Eth.handleWhitelistCheckpoint ctx first a w
    = Eth.Ret (match Eth.blockNums a with
               | [] => Eth.fetchErr a
               | _ :: _ => None
               end) w'
    /\ map snd (Eth.made w w')
       = Eth.FetchWhitelistCheckpoints ctx first
         :: map (fun p => Eth.ProcessCheckpoint (fst p) (snd p))
                (combine (Eth.blockNums a) (Eth.blockHashes a)).
Proof.
  intros He Hlen. eexists. split.
  - apply handleWhitelistCheckpoint_bor with (hc := hc); assumption.
  - erewrite made_app; [|simpl; reflexivity].
    simpl. f_equal. unfold Eth.installs. rewrite map_map. reflexivity.
Qed.

Lemma partial_failure_installation_witness :
  exists w',
    Eth.handleWhitelistCheckpoint 30000000000 false Eth.partial_answer
      (Eth.node (Eth.Bor (Some O)) 1%Z)
    = Eth.Ret (match Eth.blockNums Eth.partial_answer with
               | [] => Eth.fetchErr Eth.partial_answer
               | _ :: _ => None
               end) w'
    /\ map snd (Eth.made (Eth.node (Eth.Bor (Some O)) 1%Z) w')
       = Eth.FetchWhitelistCheckpoints 30000000000 false
         :: map (fun p => Eth.ProcessCheckpoint (fst p) (snd p))
                (combine (Eth.blockNums Eth.partial_answer)
                         (Eth.blockHashes Eth.partial_answer)).
Proof.
  apply (@partial_failure_installation 30000000000 false Eth.partial_answer
           (Eth.node (Eth.Bor (Some O)) 1%Z) O); reflexivity.
Defined.

(** C8, as the claim states it, fails: the engine's [Close()] returns an
    error, which is the first error the teardown meets, and [Stop()] returns
    nil. *)
Lemma stop_first_error_counterexample :
  Eth.first_error
    (Eth.returned_errors Eth.node_engine_close_fails
       (Eth.final (Eth.Stop Eth.node_engine_close_fails)))
  = Some (Eth.ErrOther 1)
  /\ Eth.result (Eth.Stop Eth.node_engine_close_fails) = Some None.
Proof. split; reflexivity. Qed.

(** C8 (amended).  A call of [Stop()] on a service that was not stopped
    before makes the same fourteen calls whatever any of them returns: the
    dial and discovery iterators, the protocol handler, the bloom indexer and
    its handler channel, the shutdown signal, the consensus engine, the
    transaction pool, the miner, the chain store, the consensus engine once
    more, the clean-shutdown marker, the database, and last the event mux.
    The steps of the specification occur among them in the specified order.
    Every error is dropped: [Stop()] returns nil. *)
Theorem stop_order_best_effort (w : Eth.Ethereum) :
  Eth.closeBloomHandler w = false ->
  Eth.closeCh w = false ->
  exists w',
    Eth.Stop w = Eth.Ret None w'
    /\ map snd (Eth.made w w')
       = [ Eth.EthDialCandidatesClose; Eth.SnapDialCandidatesClose;
           Eth.HandlerStop; Eth.BloomIndexerClose; Eth.CloseBloomHandler;
           Eth.CloseCloseCh; Eth.EngineClose; Eth.TxPoolStop; Eth.MinerClose;
           Eth.BlockchainStop; Eth.EngineClose; Eth.ShutdownTrackerStop;
           Eth.ChainDbClose; Eth.EventMuxStop ]
    /\ Eth.subsequence Eth.lifecycle_call_eqb Eth.teardown_order
         (map snd (Eth.made w w')) = true
    /\ Eth.closeBloomHandler w' = true
    /\ Eth.closeCh w' = true.
Proof.
  intros Hb Hc. unfold Eth.Stop. run_body. rewrite Hb. simpl. rewrite Hc. simpl.
  eexists. split; [reflexivity|].
  erewrite made_app; [|simpl; rewrite <- !app_assoc; reflexivity].
  repeat split; reflexivity.
Qed.

(** A second [Stop()] panics on the closed channel, after the four calls that
    come before [close(s.closeBloomHandler)]. *)
Lemma Stop_again_panics (w : Eth.Ethereum) :
  Eth.closeBloomHandler w = true ->
  exists w',
    Eth.Stop w = Eth.Panic w'
    /\ map snd (Eth.made w w')
       = [ Eth.EthDialCandidatesClose; Eth.SnapDialCandidatesClose;
           Eth.HandlerStop; Eth.BloomIndexerClose ].
Proof.
  intros Hb. unfold Eth.Stop. run_body. rewrite Hb.
  eexists. split; [reflexivity|].
  erewrite made_app; [|simpl; rewrite <- !app_assoc; reflexivity].
  reflexivity.
Qed.

Lemma stop_order_best_effort_witness :
  exists w',
    Eth.Stop Eth.node_engine_close_fails = Eth.Ret None w'
    /\ map snd (Eth.made Eth.node_engine_close_fails w')
       = [ Eth.EthDialCandidatesClose; Eth.SnapDialCandidatesClose;
           Eth.HandlerStop; Eth.BloomIndexerClose; Eth.CloseBloomHandler;
           Eth.CloseCloseCh; Eth.EngineClose; Eth.TxPoolStop; Eth.MinerClose;
           Eth.BlockchainStop; Eth.EngineClose; Eth.ShutdownTrackerStop;
           Eth.ChainDbClose; Eth.EventMuxStop ]
    /\ Eth.subsequence Eth.lifecycle_call_eqb Eth.teardown_order
         (map snd (Eth.made Eth.node_engine_close_fails w')) = true
    /\ Eth.closeBloomHandler w' = true
    /\ Eth.closeCh w' = true.
Proof.
  apply (stop_order_best_effort Eth.node_engine_close_fails); reflexivity.
Defined.

(** C6, as the claim states it, fails: on a clique engine the first cycle
    fails with [ErrNotBorConsensus] and the goroutine returns, but reports
    the failure nowhere: it returns no value and the log stays empty. *)
Lemma capability_error_counterexample :
  Eth.value (Eth.cycle (R := unit) true (Eth.firstAnswer Eth.sample_schedule)
               (Eth.node Eth.Clique 1%Z))
  = Some (Some Eth.ErrNotBorConsensus)
  /\ Eth.result (Eth.startCheckpointWhitelistService Eth.sample_schedule
                   (Eth.node Eth.Clique 1%Z))
     = Some tt
  /\ Eth.logs (Eth.final (Eth.startCheckpointWhitelistService Eth.sample_schedule
                            (Eth.node Eth.Clique 1%Z)))
     = [].
Proof. repeat split; reflexivity. Qed.

(** C6 (amended).  When the engine is not bor, or is bor without a Heimdall
    client, and [closeCh] is not closed yet, the first cycle fails with
    [ErrNotBorConsensus] or [ErrBorConsensusWithoutHeimdall] and the
    goroutine returns in the state that cycle left, whatever the schedule
    holds: it made the two calls of the cycle's context and no other, so no
    ticker, no fetch and no further cycle; it logged nothing and did not
    panic. *)
Theorem permanent_capability_errors (s : Eth.Schedule) (w : Eth.Ethereum)
        (e : Eth.error) :
  Eth.closed_now (Eth.closeAt s) w = false ->
  Eth.capability_error (Eth.engine w) = Some e ->
  exists w',
    Eth.cycle (R := unit) true (Eth.firstAnswer s) w = Eth.Next (Some e) w'
    /\ Eth.startCheckpointWhitelistService s w = Eth.Ret tt w'
    /\ map snd (Eth.made w w')
       = [Eth.ContextWithTimeout Eth.whitelistTimeout; Eth.ContextCancel]
    /\ Eth.logs w' = Eth.logs w
    /\ (e = Eth.ErrNotBorConsensus \/ e = Eth.ErrBorConsensusWithoutHeimdall).
Proof.
  intros Hclosed He.
  assert (Hkind : e = Eth.ErrNotBorConsensus \/ e = Eth.ErrBorConsensusWithoutHeimdall).
  { destruct (Eth.engine w) as [|[hc|]|inner| |id]; simpl in He;
      try discriminate; injection He as <-; auto. }
  eexists. split; [apply cycle_capability_error, He|].
  split; [|split; [|split; [reflexivity|exact Hkind]]].
  - unfold Eth.startCheckpointWhitelistService.
    unfold Eth.bind at 1. unfold Eth.gets at 1. rewrite Hclosed.
    unfold Eth.bind at 1. unfold Eth.when at 1. unfold Eth.skip at 1.
    unfold Eth.bind at 1.
    rewrite (cycle_capability_error _ _ _ _ He).
    unfold Eth.bind at 1. unfold Eth.bind at 1.
    destruct Hkind as [-> | ->]; reflexivity.
  - erewrite made_app; [|simpl; reflexivity]. reflexivity.
Qed.

Lemma permanent_capability_errors_witness :
  exists w',
    Eth.cycle (R := unit) true (Eth.firstAnswer Eth.sample_schedule)
      (Eth.node Eth.Clique 1%Z)
    = Eth.Next (Some Eth.ErrNotBorConsensus) w'
    /\ Eth.startCheckpointWhitelistService Eth.sample_schedule
         (Eth.node Eth.Clique 1%Z)
       = Eth.Ret tt w'
    /\ map snd (Eth.made (Eth.node Eth.Clique 1%Z) w')
       = [Eth.ContextWithTimeout Eth.whitelistTimeout; Eth.ContextCancel]
    /\ Eth.logs w' = Eth.logs (Eth.node Eth.Clique 1%Z)
    /\ (Eth.ErrNotBorConsensus = Eth.ErrNotBorConsensus
        \/ Eth.ErrNotBorConsensus = Eth.ErrBorConsensusWithoutHeimdall).
Proof.
  apply (@permanent_capability_errors Eth.sample_schedule
           (Eth.node Eth.Clique 1%Z) Eth.ErrNotBorConsensus); reflexivity.
Defined.

(** C9 (whitelist loop scheduling).  On a bor engine with a Heimdall client,
    with fetches that keep to their contract and a first cycle that does not
    end in a capability error:
    - if [closeCh] is closed when the goroutine starts, it returns at once and
      leaves the state as it found it;
    - otherwise it runs one cycle at once, under the 30-second timeout,
      creates the 100-second ticker when that cycle is over (at [t0]), and
      runs one cycle under the same timeout at each tick [t0 + 100 s],
      [t0 + 200 s], ...;
    - when [closeCh] is closed at [c] the goroutine returns: until then it
      has run one cycle per tick, [k] of them, at [t0 + 100 s], ...,
      [t0 + k * 100 s]; none of them started after [c] and none of the ticks
      before [c] was left out (the next tick, [t0 + (k+1) * 100 s], is not
      before [c]); it returns at most 30 seconds after [c], so that at most
      one tick falls between [c] and its return;
    - when [closeCh] is never closed it stays in the loop, one cycle per
      tick. *)
Theorem whitelist_loop_scheduling (s : Eth.Schedule) (w : Eth.Ethereum)
        (hc : nat) :
  Eth.engine w = Eth.Bor (Some hc) ->
  Eth.good_answer (Eth.firstAnswer s) ->
  Forall (fun t => Eth.good_answer (Eth.answer t)) (Eth.turns s) ->
  Eth.permanent (Eth.cycle_error (Eth.firstAnswer s)) = false ->
  let t0 := (Eth.now w + Eth.took (Eth.firstAnswer s))%Z in
  (Eth.closed_now (Eth.closeAt s) w = true ->
   Eth.startCheckpointWhitelistService s w = Eth.Ret tt w)
  /\ (forall c : Z,
         Eth.closeCh w = false ->
         Eth.closeAt s = Some c ->
         (Eth.now w < c)%Z ->
         (c - Eth.now w < Z.of_nat (List.length (Eth.turns s)) * Eth.tickerPeriod)%Z ->
         exists (k : nat) (w' : Eth.Ethereum),
           Eth.startCheckpointWhitelistService s w = Eth.Ret tt w'
           /\ Eth.made w w'
              = Eth.cycle_calls true (Eth.firstAnswer s) (Eth.now w)
                ++ (t0, Eth.NewTicker Eth.tickerPeriod)
                :: Eth.tick_cycles (t0 + Eth.tickerPeriod)
                     (map Eth.answer (firstn k (Eth.turns s)))
                ++ [(Eth.now w', Eth.TickerStop)]
           /\ ((0 < k)%nat -> (t0 + Z.of_nat k * Eth.tickerPeriod <= c)%Z)
           /\ (c <= t0 + (Z.of_nat k + 1) * Eth.tickerPeriod)%Z
           /\ (c <= Eth.now w' <= c + Eth.whitelistTimeout)%Z
           /\ (forall i j : Z,
                  (c <= t0 + i * Eth.tickerPeriod <= Eth.now w')%Z ->
                  (c <= t0 + j * Eth.tickerPeriod <= Eth.now w')%Z ->
                  i = j))
  /\ (Eth.closeCh w = false ->
      Eth.closeAt s = None ->
      exists w',
        Eth.startCheckpointWhitelistService s w = Eth.Blocked w'
        /\ Eth.made w w'
           = Eth.cycle_calls true (Eth.firstAnswer s) (Eth.now w)
             ++ (t0, Eth.NewTicker Eth.tickerPeriod)
             :: Eth.tick_cycles (t0 + Eth.tickerPeriod)
                  (map Eth.answer (Eth.turns s))).
Proof.
  intros He Hfirst Hturns Hperm t0.
  split; [|split].
  - intros Hclosed. unfold Eth.startCheckpointWhitelistService.
    unfold Eth.bind at 1. unfold Eth.gets at 1. rewrite Hclosed. reflexivity.
  - intros c Hc Hs Hlater Hlen.
    assert (Hclosed : Eth.closed_now (Eth.closeAt s) w = false).
    { unfold Eth.closed_now. rewrite Hc, Hs. simpl.
      apply Z.leb_gt. exact Hlater. }
    destruct (@service_reaches_loop s w hc Hclosed He Hfirst Hperm)
      as (w1 & Hrun & Hcalls1 & Hnow1 & He1 & Hc1).
    fold t0 in Hrun, Hcalls1, Hnow1.
    assert (Htook : (0 <= Eth.took (Eth.firstAnswer s) <= Eth.whitelistTimeout)%Z)
      by (destruct Hfirst; assumption).
    destruct (@whitelistLoop_exits c hc (Eth.turns s) (t0 + Eth.tickerPeriod)%Z w1)
      as (k & w' & Hloop & Hcalls & Hk & Hlow).
    + now rewrite Hc1.
    + now rewrite He1.
    + exact Hturns.
    + rewrite Hnow1. unfold Eth.tickerPeriod, Eth.Second. lia.
    + subst t0. unfold Eth.tickerPeriod, Eth.whitelistTimeout, Eth.Second in *. lia.
    + intros Hnil. rewrite Hnil in Hlen. simpl in Hlen. lia.
    + exists k. eexists. split.
      * rewrite Hrun, Hs. unfold Eth.defer. rewrite Hloop. reflexivity.
      * unfold Eth.set_calls. cbn [Eth.now].
        assert (Hexit : (c <= Eth.now w' <= c + Eth.whitelistTimeout)%Z).
        { destruct Hk as [[_ Hnow]|(_ & _ & Hexit)]; [|exact Hexit].
          rewrite Hnow, Hnow1. subst t0. lia. }
        split; [|split; [|split; [|split; [exact Hexit|]]]].
        -- apply made_app. cbn [Eth.calls]. rewrite Hcalls, Hcalls1.
           rewrite <- !app_assoc. reflexivity.
        -- intros Hpos. destruct Hk as [[-> _]|(_ & Hle & _)]; [lia|].
           unfold Eth.tickerPeriod, Eth.Second in *. lia.
        -- unfold Eth.tickerPeriod, Eth.Second in *. lia.
        -- intros i j Hi Hj.
           unfold Eth.tickerPeriod, Eth.whitelistTimeout, Eth.Second in *. lia.
  - intros Hc Hs.
    assert (Hclosed : Eth.closed_now (Eth.closeAt s) w = false).
    { unfold Eth.closed_now. now rewrite Hc, Hs. }
    destruct (@service_reaches_loop s w hc Hclosed He Hfirst Hperm)
      as (w1 & Hrun & Hcalls1 & Hnow1 & He1 & Hc1).
    fold t0 in Hrun, Hcalls1, Hnow1.
    destruct (@whitelistLoop_never_closed hc (Eth.turns s) (t0 + Eth.tickerPeriod)%Z w1)
      as (w' & Hloop & Hcalls).
    + now rewrite Hc1.
    + now rewrite He1.
    + exact Hturns.
    + rewrite Hnow1. unfold Eth.tickerPeriod, Eth.Second. lia.
    + exists w'. split.
      * rewrite Hrun, Hs. unfold Eth.defer. rewrite Hloop. reflexivity.
      * apply made_app. rewrite Hcalls, Hcalls1.
        rewrite <- !app_assoc. reflexivity.
Qed.

Lemma whitelist_loop_scheduling_witness :
  let s := Eth.sample_schedule in
  let w := Eth.node (Eth.Bor (Some O)) 1%Z in
  let c := (250 * Eth.Second)%Z in
  let t0 := (Eth.now w + Eth.took (Eth.firstAnswer s))%Z in
  exists (k : nat) (w' : Eth.Ethereum),
    Eth.startCheckpointWhitelistService s w = Eth.Ret tt w'
    /\ Eth.made w w'
       = Eth.cycle_calls true (Eth.firstAnswer s) (Eth.now w)
         ++ (t0, Eth.NewTicker Eth.tickerPeriod)
         :: Eth.tick_cycles (t0 + Eth.tickerPeriod)
              (map Eth.answer (firstn k (Eth.turns s)))
         ++ [(Eth.now w', Eth.TickerStop)]
    /\ ((0 < k)%nat -> (t0 + Z.of_nat k * Eth.tickerPeriod <= c)%Z)
    /\ (c <= t0 + (Z.of_nat k + 1) * Eth.tickerPeriod)%Z
    /\ (c <= Eth.now w' <= c + Eth.whitelistTimeout)%Z
    /\ (forall i j : Z,
           (c <= t0 + i * Eth.tickerPeriod <= Eth.now w')%Z ->
           (c <= t0 + j * Eth.tickerPeriod <= Eth.now w')%Z ->
           i = j).
Proof.
  intros s w c t0.
  assert (Hfull : Eth.good_answer Eth.full_answer).
  { split; [reflexivity|]. split; discriminate. }
  assert (Hpartial : Eth.good_answer Eth.partial_answer).
  { split; [reflexivity|]. split; discriminate. }
  refine (proj1 (proj2 (@whitelist_loop_scheduling s w O _ _ _ _)) c _ _ _ _).
  - reflexivity.
  - exact Hfull.
  - subst s. unfold Eth.sample_schedule. cbn [Eth.turns].
    repeat (apply Forall_cons; [assumption|]). apply Forall_nil.
  - reflexivity.
  - reflexivity.
  - reflexivity.
  - reflexivity.
  - reflexivity.
Defined.

(* ================================================================== *)
(** * Properties of the test helper *)
(* ================================================================== *)

Section MinerTestFacts.

Import MinerTest.

Lemma eqb_false_negb (a b : bool) : Bool.eqb a b = false -> a = negb b.
Proof. destruct a, b; simpl; congruence. Qed.

(** The loop returns at the first round that sees the wanted state. *)
Lemma poll_Returned (n : nat) :
  forall (i : nat) (Mining : nat -> bool) (mining state : bool) (j : nat),
    poll n i Mining mining state = Returned (S j)
    <-> (i <= j < i + n)%nat /\ Mining j = mining
        /\ (forall j', (i <= j' < j)%nat -> Mining j' = negb mining).
Proof.
  induction n as [|n IH]; intros i Mining mining state j; simpl.
  - split; [discriminate|]. intros [H _]. lia.
  - destruct (Bool.eqb (Mining i) mining) eqn:He.
    + apply Bool.eqb_prop in He. split.
      * intros H. injection H as <-. split; [lia|]. split; [exact He|].
        intros j' Hj'. lia.
      * intros (Hj & Hm & Hbefore).
        destruct (Nat.eq_dec i j) as [->|Hne]; [reflexivity|].
        assert (Hi : Mining i = negb mining) by (apply Hbefore; lia).
        rewrite He in Hi. destruct mining; discriminate.
    + apply eqb_false_negb in He. rewrite IH. split.
      * intros (Hj & Hm & Hbefore). split; [lia|]. split; [exact Hm|].
        intros j' Hj'. destruct (Nat.eq_dec j' i) as [->|Hne]; [exact He|].
        apply Hbefore. lia.
      * intros (Hj & Hm & Hbefore).
        assert (Hij : i <> j).
        { intros ->. rewrite He in Hm. destruct mining; discriminate. }
        split; [lia|]. split; [exact Hm|].
        intros j' Hj'. apply Hbefore. lia.
Qed.

Lemma poll_never_Returned_O (n : nat) :
  forall (i : nat) (Mining : nat -> bool) (mining state : bool),
    poll n i Mining mining state <> Returned O.
Proof.
  induction n as [|n IH]; intros i Mining mining state; simpl; [discriminate|].
  destruct (Bool.eqb (Mining i) mining); [discriminate|apply IH].
Qed.

(** The loop fails when no round sees the wanted state, and reports the state
    it saw last. *)
Lemma poll_Fatalf (n : nat) :
  forall (i : nat) (Mining : nat -> bool) (mining state s : bool),
    poll n i Mining mining state = Fatalf s
    <-> (forall j, (i <= j < i + n)%nat -> Mining j = negb mining)
        /\ s = (if Nat.eqb n 0 then state else negb mining).
Proof.
  induction n as [|n IH]; intros i Mining mining state s; simpl.
  - split.
    + intros H. injection H as <-. split; [intros j Hj; lia|reflexivity].
    + intros [_ ->]. reflexivity.
  - destruct (Bool.eqb (Mining i) mining) eqn:He.
    + apply Bool.eqb_prop in He. split; [discriminate|].
      intros [Hall _]. assert (Hi : Mining i = negb mining) by (apply Hall; lia).
      rewrite He in Hi. destruct mining; discriminate.
    + apply eqb_false_negb in He. rewrite IH. split.
      * intros [Hall Hs]. split.
        -- intros j Hj. destruct (Nat.eq_dec j i) as [->|Hne]; [exact He|].
           apply Hall. lia.
        -- rewrite Hs, He. destruct (Nat.eqb n 0); reflexivity.
      * intros [Hall ->]. split.
        -- intros j Hj. apply Hall. lia.
        -- rewrite He. destruct (Nat.eqb n 0); reflexivity.
Qed.

End MinerTestFacts.

(** X1.  [waitForMiningState] returns after its [j+1]-th poll exactly when
    that poll is among the first hundred, sees the wanted state, and no
    earlier poll did; it fails exactly when none of the hundred polls sees
    the wanted state, and then reports the opposite state; it sleeps 10 ms
    before every poll, so at least 10 ms and at most one second. *)
Theorem waitForMiningState_polls (Mining : nat -> bool) (mining : bool) :
  (forall j : nat,
      MinerTest.waitForMiningState Mining mining = MinerTest.Returned (S j)
      <-> (j < 100)%nat /\ Mining j = mining
          /\ (forall j', (j' < j)%nat -> Mining j' = negb mining))
  /\ (forall s : bool,
         MinerTest.waitForMiningState Mining mining = MinerTest.Fatalf s
         <-> (forall j, (j < 100)%nat -> Mining j = negb mining)
             /\ s = negb mining)
  /\ (10 <= MinerTest.slept (MinerTest.waitForMiningState Mining mining) <= 1000)%Z.
Proof.
  unfold MinerTest.waitForMiningState. split; [|split].
  - intros j. rewrite poll_Returned. split.
    + intros (Hj & Hm & Hb). split; [lia|]. split; [exact Hm|].
      intros j' Hj'. apply Hb. lia.
    + intros (Hj & Hm & Hb). split; [lia|]. split; [exact Hm|].
      intros j' Hj'. apply Hb. lia.
  - intros s. rewrite poll_Fatalf. simpl. split.
    + intros [Hall ->]. split; [|reflexivity]. intros j Hj. apply Hall. lia.
    + intros [Hall ->]. split; [|reflexivity]. intros j Hj. apply Hall. lia.
  - destruct (MinerTest.poll 100 0 Mining mining false) as [[|j]|s] eqn:Hp.
    + exfalso. exact (poll_never_Returned_O _ _ _ _ _ Hp).
    + apply poll_Returned in Hp. destruct Hp as (Hj & _).
      unfold MinerTest.slept. lia.
    + simpl. lia.
Qed.

(* ================================================================== *)
(** * Properties of the rest of [eth/backend.go] *)
(* ================================================================== *)

Section BackendFacts.

Import Eth Backend.
Local Open Scope Z_scope.

Lemma wrap_int_small (z : Z) : - 2 ^ 63 <= z < 2 ^ 63 -> wrap_int z = z.
Proof.
  intros H. unfold wrap_int.
  rewrite Z.mod_small; [lia|]. change (2 ^ 64) with (2 ^ 63 + 2 ^ 63). lia.
Qed.

(** What [New_sanitize] leaves of a configuration it accepts. *)
Lemma New_sanitize_inr (x : Externals) (config config' : Config) (l : list Log) :
  New_sanitize x config = (l, inr config') ->
  exists price,
    MinerGasPrice config' = Some price
    /\ price = match MinerGasPrice config with
               | Some p => if p <=? 0 then DefaultsMinerGasPrice x else p
               | None => DefaultsMinerGasPrice x
               end
    /\ SyncMode config' = SyncMode config
    /\ (SyncMode config =? LightSync x) = false
    /\ IsValid x (SyncMode config) = true
    /\ NoPruning config' = NoPruning config
    /\ (NoPruning config && (TrieDirtyCache config >? 0) = false ->
        TrieCleanCache config' = TrieCleanCache config
        /\ TrieDirtyCache config' = TrieDirtyCache config
        /\ SnapshotCache config' = SnapshotCache config)
    /\ (NoPruning config && (TrieDirtyCache config >? 0) = true ->
        TrieDirtyCache config' = 0)
    /\ l = match MinerGasPrice config with
           | Some p =>
               if p <=? 0
               then [LogWarn "Sanitizing invalid miner gas price" None]
               else []
           | None => [LogWarn "Sanitizing invalid miner gas price" None]
           end.
Proof.
  unfold New_sanitize. intros H.
  destruct (SyncMode config =? LightSync x) eqn:Hl; [discriminate|].
  destruct (IsValid x (SyncMode config)) eqn:Hv; [|discriminate].
  simpl in H.
  destruct (MinerGasPrice config) as [p|] eqn:Hp;
    [destruct (p <=? 0) eqn:Hp0|];
    simpl in H;
    destruct (NoPruning config && (TrieDirtyCache config >? 0)) eqn:Hc;
    try destruct (SnapshotCache config >? 0) eqn:Hs;
    injection H as <- <-; simpl; rewrite ?Hp;
    eexists; (split; [reflexivity|]);
    repeat split; try reflexivity; try assumption; try discriminate.
Qed.

End BackendFacts.

(** X2.  A configuration [New] accepts leaves the sanitizing block with a
    miner gas price that is set: the one given when it is positive (and then
    no warning is logged), the default otherwise; so it is positive whenever
    the default is. *)
Theorem New_gas_price_sane (x : Backend.Externals) (config config' : Backend.Config)
        (l : list Eth.Log) :
  Backend.New_sanitize x config = (l, inr config') ->
  exists price : Z,
    Backend.MinerGasPrice config' = Some price
    /\ ((0 < Backend.DefaultsMinerGasPrice x)%Z -> (0 < price)%Z)
    /\ (forall p : Z,
           Backend.MinerGasPrice config = Some p -> (0 < p)%Z ->
           price = p /\ l = [])
    /\ (Backend.MinerGasPrice config = None ->
        price = Backend.DefaultsMinerGasPrice x)
    /\ (forall p : Z,
           Backend.MinerGasPrice config = Some p -> (p <= 0)%Z ->
           price = Backend.DefaultsMinerGasPrice x).
Proof.
  intros H.
  destruct (New_sanitize_inr _ _ H)
    as (price & Hprice & Heq & _ & _ & _ & _ & _ & _ & Hl).
  exists price. split; [exact Hprice|].
  destruct (Backend.MinerGasPrice config) as [p|] eqn:Hp.
  - destruct (p <=? 0)%Z eqn:Hp0.
    + apply Z.leb_le in Hp0. subst price.
      split; [auto|]. split; [|split; [discriminate|reflexivity]].
      intros p0 H0 Hpos. injection H0 as ->. lia.
    + apply Z.leb_gt in Hp0. subst price l.
      split; [auto|]. split; [|split; [discriminate|]].
      * intros p0 H0 _. injection H0 as ->. split; reflexivity.
      * intros p0 H0 Hle. injection H0 as ->. lia.
  - subst price. split; [auto|]. split; [discriminate|].
    split; [reflexivity|discriminate].
Qed.

Lemma New_gas_price_sane_witness :
  exists price : Z,
    Backend.MinerGasPrice
      (Backend.set_caches 307 0 204
         (Backend.set_MinerGasPrice (Some 1000000000%Z) Backend.sample_config))
    = Some price
    /\ ((0 < Backend.DefaultsMinerGasPrice Backend.sample_externals)%Z -> (0 < price)%Z)
    /\ (forall p : Z,
           Backend.MinerGasPrice Backend.sample_config = Some p -> (0 < p)%Z ->
           price = p
           /\ [Eth.LogWarn "Sanitizing invalid miner gas price" None] = [])
    /\ (Backend.MinerGasPrice Backend.sample_config = None ->
        price = Backend.DefaultsMinerGasPrice Backend.sample_externals)
    /\ (forall p : Z,
           Backend.MinerGasPrice Backend.sample_config = Some p -> (p <= 0)%Z ->
           price = Backend.DefaultsMinerGasPrice Backend.sample_externals).
Proof.
  apply (@New_gas_price_sane Backend.sample_externals Backend.sample_config).
  reflexivity.
Defined.

(** X3.  With pruning off ([NoPruning]) and a positive dirty-trie allowance,
    [New] hands that allowance to the clean-trie and snapshot caches and sets
    it to zero; neither cache shrinks; the total is kept when there is no
    snapshot cache or the allowance is a multiple of 5, and is one less
    otherwise (3/5 and 2/5 are both rounded down).  The bounds keep Go's
    [int] from wrapping around. *)
Theorem New_reallocates_dirty_cache (x : Backend.Externals)
        (config config' : Backend.Config) (l : list Eth.Log) :
  Backend.New_sanitize x config = (l, inr config') ->
  Backend.NoPruning config = true ->
  (0 < Backend.TrieDirtyCache config < 2 ^ 60)%Z ->
  (0 <= Backend.TrieCleanCache config < 2 ^ 60)%Z ->
  (0 <= Backend.SnapshotCache config < 2 ^ 60)%Z ->
  Backend.TrieDirtyCache config' = 0%Z
  /\ (Backend.TrieCleanCache config <= Backend.TrieCleanCache config')%Z
  /\ (Backend.SnapshotCache config <= Backend.SnapshotCache config')%Z
  /\ (Backend.TrieCleanCache config' + Backend.SnapshotCache config'
      = Backend.TrieCleanCache config + Backend.SnapshotCache config
        + Backend.TrieDirtyCache config
        - (if (0 <? Backend.SnapshotCache config)
              && negb (Backend.TrieDirtyCache config mod 5 =? 0)
           then 1 else 0))%Z.
Proof.
  intros H Hnp Hd Hc Hs. unfold Backend.New_sanitize in H.
  destruct (Backend.SyncMode config =? Backend.LightSync x)%Z; [discriminate|].
  destruct (Backend.IsValid x (Backend.SyncMode config)); [|discriminate].
  cbn [negb] in H.
  assert (Hpos : (Backend.TrieDirtyCache config >? 0)%Z = true)
    by (apply Z.gtb_lt; lia).
  assert (H260 : (2 ^ 60 = 1152921504606846976)%Z) by reflexivity.
  assert (H263 : (2 ^ 63 = 9223372036854775808)%Z) by reflexivity.
  set (d := Backend.TrieDirtyCache config) in *.
  set (c := Backend.TrieCleanCache config) in *.
  set (s := Backend.SnapshotCache config) in *.
  assert (Hq3 : (Z.quot (Backend.wrap_int (d * 3)) 5 = d * 3 / 5)%Z).
  { rewrite wrap_int_small by lia. apply Z.quot_div_nonneg; lia. }
  assert (Hq2 : (Z.quot (Backend.wrap_int (d * 2)) 5 = d * 2 / 5)%Z).
  { rewrite wrap_int_small by lia. apply Z.quot_div_nonneg; lia. }
  assert (Hd3 : (0 <= d * 3 / 5 <= d)%Z).
  { split; [apply Z.div_pos; lia|]. apply Z.div_le_upper_bound; lia. }
  assert (Hd2 : (0 <= d * 2 / 5 <= d)%Z).
  { split; [apply Z.div_pos; lia|]. apply Z.div_le_upper_bound; lia. }
  assert (Hsum : (d * 3 / 5 + d * 2 / 5
                  = d - (if negb (d mod 5 =? 0) then 1 else 0))%Z).
  { destruct (d mod 5 =? 0)%Z eqn:Hm; simpl.
    - apply Z.eqb_eq in Hm. Z.to_euclidean_division_equations. lia.
    - apply Z.eqb_neq in Hm. Z.to_euclidean_division_equations. lia. }
  destruct (Backend.MinerGasPrice config) as [p|];
    [destruct (p <=? 0)%Z|];
    cbn [Backend.set_MinerGasPrice Backend.NoPruning Backend.TrieDirtyCache
         Backend.TrieCleanCache Backend.SnapshotCache] in H;
    fold d c s in H; rewrite Hnp, Hpos in H; cbn [andb] in H;
    (destruct (s >? 0)%Z eqn:Hsn;
     [ apply Z.gtb_lt in Hsn;
       assert (Hlt : (0 <? s)%Z = true) by (apply Z.ltb_lt; lia)
     | assert (Hlt : (0 <? s)%Z = false)
         by (apply Z.ltb_ge; rewrite Z.gtb_ltb in Hsn; apply Z.ltb_ge in Hsn; lia) ];
     injection H as _ <-;
     cbn [Backend.set_caches Backend.TrieDirtyCache Backend.TrieCleanCache
          Backend.SnapshotCache];
     rewrite Hlt; cbn [andb];
     rewrite ?Hq3, ?Hq2, ?wrap_int_small by lia;
     repeat split; lia).
Qed.

Lemma New_reallocates_dirty_cache_witness :
  Backend.TrieDirtyCache
    (Backend.set_caches 307 0 204
       (Backend.set_MinerGasPrice (Some 1000000000%Z) Backend.sample_config))
  = 0%Z
  /\ (Backend.TrieCleanCache Backend.sample_config
      <= Backend.TrieCleanCache
           (Backend.set_caches 307 0 204
              (Backend.set_MinerGasPrice (Some 1000000000%Z) Backend.sample_config)))%Z
  /\ (Backend.SnapshotCache Backend.sample_config
      <= Backend.SnapshotCache
           (Backend.set_caches 307 0 204
              (Backend.set_MinerGasPrice (Some 1000000000%Z) Backend.sample_config)))%Z
  /\ (Backend.TrieCleanCache
        (Backend.set_caches 307 0 204
           (Backend.set_MinerGasPrice (Some 1000000000%Z) Backend.sample_config))
      + Backend.SnapshotCache
          (Backend.set_caches 307 0 204
             (Backend.set_MinerGasPrice (Some 1000000000%Z) Backend.sample_config))
      = Backend.TrieCleanCache Backend.sample_config
        + Backend.SnapshotCache Backend.sample_config
        + Backend.TrieDirtyCache Backend.sample_config
        - (if (0 <? Backend.SnapshotCache Backend.sample_config)
              && negb (Backend.TrieDirtyCache Backend.sample_config mod 5 =? 0)
           then 1 else 0))%Z.
Proof.
  apply (@New_reallocates_dirty_cache Backend.sample_externals
           Backend.sample_config _
           [Eth.LogWarn "Sanitizing invalid miner gas price" None]).
  - reflexivity.
  - reflexivity.
  - split; reflexivity.
  - split; [discriminate|reflexivity].
  - split; [discriminate|reflexivity].
Defined.

(** X4.  Sanitizing is idempotent: the configuration [New] goes on with
    passes the same block unchanged. *)
Theorem New_sanitize_idempotent (x : Backend.Externals)
        (config config' : Backend.Config) (l : list Eth.Log) :
  Backend.New_sanitize x config = (l, inr config') ->
  snd (Backend.New_sanitize x config') = inr config'.
Proof.
  intros H.
  destruct (New_sanitize_inr _ _ H)
    as (price & Hprice & Heq & Hmode & Hl & Hv & Hnp & Hsame & Hzero & _).
  unfold Backend.New_sanitize.
  assert (Hl' : (Backend.SyncMode config' =? Backend.LightSync x)%Z = false)
    by (rewrite Hmode; exact Hl).
  assert (Hv' : Backend.IsValid x (Backend.SyncMode config') = true)
    by (rewrite Hmode; exact Hv).
  rewrite Hl', Hv', Hprice. cbn [negb].
  assert (Hcache : Backend.NoPruning config'
                   && (Backend.TrieDirtyCache config' >? 0)%Z = false).
  { rewrite Hnp.
    destruct (Backend.NoPruning config && (Backend.TrieDirtyCache config >? 0)%Z)
      eqn:Hc.
    - rewrite (Hzero eq_refl). apply andb_false_r.
    - destruct (Hsame eq_refl) as (_ & -> & _). exact Hc. }
  assert (Hset : Backend.set_MinerGasPrice (Some price) config' = config').
  { destruct config'. simpl in Hprice. subst. reflexivity. }
  destruct (price <=? 0)%Z eqn:Hp0.
  - assert (Hdef : price = Backend.DefaultsMinerGasPrice x).
    { destruct (Backend.MinerGasPrice config) as [p|]; [|exact Heq].
      destruct (p <=? 0)%Z eqn:Hp; [exact Heq|]. subst p. congruence. }
    rewrite <- Hdef, Hset. cbn [snd]. now rewrite Hcache.
  - cbn [snd]. now rewrite Hcache.
Qed.

Lemma New_sanitize_idempotent_witness :
  snd (Backend.New_sanitize Backend.sample_externals
         (Backend.set_caches 307 0 204
            (Backend.set_MinerGasPrice (Some 1000000000%Z) Backend.sample_config)))
  = inr (Backend.set_caches 307 0 204
           (Backend.set_MinerGasPrice (Some 1000000000%Z) Backend.sample_config)).
Proof.
  apply (@New_sanitize_idempotent Backend.sample_externals Backend.sample_config _
           [Eth.LogWarn "Sanitizing invalid miner gas price" None]).
  reflexivity.
Defined.

(** X5.  The database version check of [New]: it fails exactly when the
    check is on and the database holds a version above
    [core.BlockChainVersion], and then writes nothing; otherwise the database
    ends up at [core.BlockChainVersion] when the check is on and is left as it
    was when the check is skipped, so the stored version never goes down; the
    upgrade warning is logged for an older database only, not for a fresh
    one. *)
Theorem New_database_version (x : Backend.Externals) (config : Backend.Config)
        (bcVersion : option Z) :
  (forall e,
      snd (Backend.New_checkBcVersion x config bcVersion) = inl e
      <-> Backend.SkipBcVersionCheck config = false
          /\ exists v, bcVersion = Some v
                       /\ (Backend.BlockChainVersion x < v)%Z
                       /\ e = Backend.ErrDatabaseVersion v)
  /\ (forall after,
         snd (Backend.New_checkBcVersion x config bcVersion) = inr after ->
         (Backend.SkipBcVersionCheck config = true -> after = bcVersion)
         /\ (Backend.SkipBcVersionCheck config = false ->
             after = Some (Backend.BlockChainVersion x))
         /\ (forall v, bcVersion = Some v ->
                       exists v', after = Some v' /\ (v <= v')%Z))
  /\ (fst (Backend.New_checkBcVersion x config bcVersion) <> []
      <-> Backend.SkipBcVersionCheck config = false
          /\ exists v, bcVersion = Some v /\ (v < Backend.BlockChainVersion x)%Z).
Proof.
  unfold Backend.New_checkBcVersion.
  destruct (Backend.SkipBcVersionCheck config); cbn [negb].
  - split; [|split].
    + intros e. split; [discriminate|]. intros [H _]. discriminate.
    + intros after H. injection H as <-. split; [reflexivity|].
      split; [discriminate|]. intros v ->. exists v. split; [reflexivity|lia].
    + split; [intros H; now contradiction H|]. intros [H _]. discriminate.
  - destruct bcVersion as [v|].
    + destruct (v >? Backend.BlockChainVersion x)%Z eqn:Hgt.
      * apply Z.gtb_lt in Hgt. split; [|split].
        -- intros e. split.
           ++ intros H. injection H as <-. split; [reflexivity|].
              exists v. repeat split. exact Hgt.
           ++ intros (_ & v0 & Hv & _ & ->). injection Hv as <-. reflexivity.
        -- intros after H. discriminate.
        -- split; [intros H; now contradiction H|].
           intros (_ & v0 & Hv & Hlt). injection Hv as <-. lia.
      * assert (Hle : (v <= Backend.BlockChainVersion x)%Z).
        { rewrite Z.gtb_ltb in Hgt. apply Z.ltb_ge in Hgt. exact Hgt. }
        destruct (v <? Backend.BlockChainVersion x)%Z eqn:Hlt.
        -- apply Z.ltb_lt in Hlt. split; [|split].
           ++ intros e. split; [discriminate|].
              intros (_ & v0 & Hv & Hlt0 & _). injection Hv as <-. lia.
           ++ intros after H. injection H as <-. split; [discriminate|].
              split; [reflexivity|]. intros v0 Hv. injection Hv as <-.
              eexists. split; [reflexivity|lia].
           ++ split; [|discriminate]. intros _. split; [reflexivity|].
              exists v. split; [reflexivity|exact Hlt].
        -- apply Z.ltb_ge in Hlt. assert (v = Backend.BlockChainVersion x) by lia.
           split; [|split].
           ++ intros e. split; [discriminate|].
              intros (_ & v0 & Hv & Hlt0 & _). injection Hv as <-. lia.
           ++ intros after H0. injection H0 as <-. split; [discriminate|].
              split; [congruence|]. intros v0 Hv. injection Hv as <-.
              exists v. split; [reflexivity|lia].
           ++ split; [intros H0; now contradiction H0|].
              intros (_ & v0 & Hv & Hlt0). injection Hv as <-. lia.
    + split; [|split].
      * intros e. split; [discriminate|]. intros (_ & v & Hv & _). discriminate.
      * intros after H. injection H as <-. split; [discriminate|].
        split; [reflexivity|]. discriminate.
      * split; [intros H; now contradiction H|].
        intros (_ & v & Hv & _). discriminate.
Qed.

(** X6.  [makeExtraData] never returns more than
    [params.MaximumExtraDataSize] bytes; extra data that is not empty and
    within the limit is returned as it is; extra data over the limit is
    replaced by nil, not by the default; empty extra data gives the default,
    or nil when the default itself is over the limit; the warning is logged
    exactly when the data, given or default, is over the limit. *)
Theorem makeExtraData_bounded (x : Backend.Externals) (extra : list Byte.byte) :
  (0 <= Backend.MaximumExtraDataSize x)%Z ->
  (Z.of_nat (List.length (snd (Backend.makeExtraData x extra)))
   <= Backend.MaximumExtraDataSize x)%Z
  /\ (extra <> [] ->
      (Z.of_nat (List.length extra) <= Backend.MaximumExtraDataSize x)%Z ->
      Backend.makeExtraData x extra = ([], extra))
  /\ ((Backend.MaximumExtraDataSize x < Z.of_nat (List.length extra))%Z ->
      snd (Backend.makeExtraData x extra) = [])
  /\ (extra = [] ->
      snd (Backend.makeExtraData x extra)
      = if (Z.of_nat (List.length (Backend.defaultExtraData x))
            <=? Backend.MaximumExtraDataSize x)%Z
        then Backend.defaultExtraData x else [])
  /\ (fst (Backend.makeExtraData x extra) <> []
      <-> (Backend.MaximumExtraDataSize x
           < Z.of_nat (List.length (match extra with
                                    | [] => Backend.defaultExtraData x
                                    | _ => extra
                                    end)))%Z).
Proof.
  intros Hmax. unfold Backend.makeExtraData.
  destruct extra as [|b extra]; cbn [List.length Nat.eqb].
  - destruct (Z.of_nat (List.length (Backend.defaultExtraData x))
              >? Backend.MaximumExtraDataSize x)%Z eqn:Hgt; cbn [fst snd].
    + apply Z.gtb_lt in Hgt. split; [simpl; lia|].
      split; [intros H; now contradiction H|]. split; [simpl; lia|].
      split; [|split; [intros _; exact Hgt|discriminate]].
      intros _. destruct (Z.leb_spec (Z.of_nat (List.length (Backend.defaultExtraData x)))
                                     (Backend.MaximumExtraDataSize x)); [lia|reflexivity].
    + rewrite Z.gtb_ltb in Hgt. apply Z.ltb_ge in Hgt.
      split; [exact Hgt|]. split; [intros H; now contradiction H|].
      split; [simpl; lia|].
      split; [|split; [intros H; now contradiction H|lia]].
      intros _.
      destruct (Z.leb_spec (Z.of_nat (List.length (Backend.defaultExtraData x)))
                           (Backend.MaximumExtraDataSize x)); [reflexivity|lia].
  - destruct (Z.of_nat (S (List.length extra))
              >? Backend.MaximumExtraDataSize x)%Z eqn:Hgt; cbn [fst snd].
    + apply Z.gtb_lt in Hgt. split; [simpl; lia|].
      split; [intros _ Hle; simpl List.length in Hle; lia|].
      split; [reflexivity|]. split; [discriminate|].
      split; [intros _; exact Hgt|discriminate].
    + rewrite Z.gtb_ltb in Hgt. apply Z.ltb_ge in Hgt.
      split; [exact Hgt|]. split; [reflexivity|].
      split; [intros Hlt; simpl List.length in Hlt; lia|].
      split; [discriminate|].
      split; [intros H; now contradiction H|]. simpl List.length. lia.
Qed.

Lemma makeExtraData_bounded_witness :
  (Z.of_nat (List.length (snd (Backend.makeExtraData Backend.sample_externals [Byte.x62])))
   <= Backend.MaximumExtraDataSize Backend.sample_externals)%Z
  /\ ([Byte.x62] <> [] ->
      (Z.of_nat (List.length [Byte.x62])
       <= Backend.MaximumExtraDataSize Backend.sample_externals)%Z ->
      Backend.makeExtraData Backend.sample_externals [Byte.x62] = ([], [Byte.x62]))
  /\ ((Backend.MaximumExtraDataSize Backend.sample_externals
       < Z.of_nat (List.length [Byte.x62]))%Z ->
      snd (Backend.makeExtraData Backend.sample_externals [Byte.x62]) = [])
  /\ ([Byte.x62] = [] ->
      snd (Backend.makeExtraData Backend.sample_externals [Byte.x62])
      = if (Z.of_nat (List.length (Backend.defaultExtraData Backend.sample_externals))
            <=? Backend.MaximumExtraDataSize Backend.sample_externals)%Z
        then Backend.defaultExtraData Backend.sample_externals else [])
  /\ (fst (Backend.makeExtraData Backend.sample_externals [Byte.x62]) <> []
      <-> (Backend.MaximumExtraDataSize Backend.sample_externals
           < Z.of_nat (List.length [Byte.x62]))%Z).
Proof.
  apply (@makeExtraData_bounded Backend.sample_externals [Byte.x62]).
  discriminate.
Defined.

(** X7.  [Start] fails exactly when light serving is on ([LightServ > 0]) and
    [LightPeers >= MaxPeers]; by then the ENR updater, the bloom handlers and
    the shutdown tracker are started and stay so, while the handler is not
    started and the whitelist goroutine is not spawned.  Otherwise it starts
    the handler and then spawns the goroutine: with [MaxPeers] peers when
    light serving is off, with [MaxPeers - LightPeers] peers, at least one
    and at most [MaxPeers], when it is on and [LightPeers] is not
    negative. *)
Theorem Start_peer_config (config : Backend.Config) (MaxPeers : Z) :
  (snd (Backend.Start config MaxPeers) <> None
   <-> (0 < Backend.LightServ config)%Z /\ (MaxPeers <= Backend.LightPeers config)%Z)
  /\ (snd (Backend.Start config MaxPeers) <> None ->
      fst (Backend.Start config MaxPeers)
      = [Backend.StartENRUpdater; Backend.startBloomHandlers;
         Backend.ShutdownTrackerStart])
  /\ (snd (Backend.Start config MaxPeers) = None ->
      exists maxPeers,
        fst (Backend.Start config MaxPeers)
        = [Backend.StartENRUpdater; Backend.startBloomHandlers;
           Backend.ShutdownTrackerStart; Backend.HandlerStart maxPeers;
           Backend.GoStartCheckpointWhitelistService]
        /\ ((Backend.LightServ config <= 0)%Z -> maxPeers = MaxPeers)
        /\ ((0 < Backend.LightServ config)%Z ->
            (0 <= Backend.LightPeers config)%Z -> (MaxPeers < 2 ^ 63)%Z ->
            maxPeers = (MaxPeers - Backend.LightPeers config)%Z
            /\ (0 < maxPeers <= MaxPeers)%Z)).
Proof.
  unfold Backend.Start.
  destruct (Backend.LightServ config >? 0)%Z eqn:Hs.
  - apply Z.gtb_lt in Hs.
    destruct (Backend.LightPeers config >=? MaxPeers)%Z eqn:Hp.
    + apply Z.geb_le in Hp. cbn [fst snd]. split; [|split].
      * split; [intros _; split; assumption|discriminate].
      * reflexivity.
      * discriminate.
    + rewrite Z.geb_leb in Hp. apply Z.leb_gt in Hp. cbn [fst snd].
      split; [|split].
      * split; [intros H; now contradiction H|]. intros [_ H]. lia.
      * intros H. now contradiction H.
      * intros _. eexists. split; [reflexivity|].
        split; [lia|]. intros _ Hl Hm.
        assert (H263 : (2 ^ 63 = 9223372036854775808)%Z) by reflexivity.
        rewrite wrap_int_small by lia. lia.
  - rewrite Z.gtb_ltb in Hs. apply Z.ltb_ge in Hs. cbn [fst snd].
    split; [|split].
    + split; [intros H; now contradiction H|]. intros [H _]. lia.
    + intros H. now contradiction H.
    + intros _. eexists. split; [reflexivity|].
      split; [reflexivity|]. intros H. lia.
Qed.

Section LocalBlockFacts.

Import Eth Backend.
Local Open Scope Z_scope.

Lemma range_Locals_In (locals : list Address) (author : Address) :
  range_Locals locals author = true <-> In author locals.
Proof.
  induction locals as [|account rest IH]; simpl.
  - split; [discriminate|contradiction].
  - destruct (Z.eqb_spec account author) as [->|Hne].
    + split; [now left|reflexivity].
    + rewrite IH. split; [now right|]. intros [H|H]; [contradiction|exact H].
Qed.

Lemma isLocalBlock_spec (config : Config) (author : Address * option error)
      (w : Ethereum) :
  snd (isLocalBlock config author w) = true
  <-> snd author = None
      /\ (fst author = etherbase w \/ In (fst author) (TxPoolLocals config)).
Proof.
  unfold isLocalBlock. destruct (snd author) as [e|].
  - split; [discriminate|]. intros [H _]. discriminate.
  - destruct (Z.eqb_spec (fst author) (etherbase w)) as [Heq|Hne]; cbn [snd].
    + split; [intros _; split; [reflexivity|now left]|reflexivity].
    + rewrite range_Locals_In. split.
      * intros H. split; [reflexivity|now right].
      * intros [_ [H|H]]; [contradiction|exact H].
Qed.

Lemma isLocalBlock_logs (config : Config) (author : Address * option error)
      (w : Ethereum) :
  fst (isLocalBlock config author w)
  = match snd author with
    | Some err => [LogWarn "Failed to retrieve block author"%string (Some err)]
    | None => []
    end.
Proof.
  unfold isLocalBlock. destruct (snd author) as [e|]; [reflexivity|].
  destruct (fst author =? etherbase w); reflexivity.
Qed.

End LocalBlockFacts.

(** X8.  [shouldPreserve] holds exactly when the engine is not clique itself,
    [engine.Author] returned no error, and the author is the etherbase or one
    of [TxPool.Locals]; on clique it is false even for the etherbase's own
    block and the author is not looked at, while a clique engine inside
    beacon is not told apart from the other engines; the only thing logged
    is the warning for the author's error, off clique. *)
Theorem shouldPreserve_local_author (config : Backend.Config)
        (author : Eth.Address * option Eth.error) (w : Eth.Ethereum) :
  (snd (Backend.shouldPreserve config author w) = true
   <-> Eth.engine w <> Eth.Clique
       /\ snd author = None
       /\ (fst author = Eth.etherbase w
           \/ In (fst author) (Backend.TxPoolLocals config)))
  /\ (Eth.engine w = Eth.Clique ->
      Backend.shouldPreserve config author w = ([], false))
  /\ (Eth.engine w = Eth.Beacon Eth.Clique ->
      Backend.shouldPreserve config author w
      = Backend.isLocalBlock config author w)
  /\ (Eth.engine w <> Eth.Clique ->
      fst (Backend.shouldPreserve config author w)
      = match snd author with
        | Some err =>
            [Eth.LogWarn "Failed to retrieve block author"%string (Some err)]
        | None => []
        end).
Proof.
  split; [|split; [|split]].
  - unfold Backend.shouldPreserve.
    destruct (Eth.engine w) eqn:He.
    1: split; [discriminate|intros [Hne _]; now contradiction Hne].
    all: rewrite isLocalBlock_spec;
      (split; [intros H; split; [discriminate|exact H]|intros [_ H]; exact H]).
  - intros He. unfold Backend.shouldPreserve. now rewrite He.
  - intros He. unfold Backend.shouldPreserve. now rewrite He.
  - intros He. unfold Backend.shouldPreserve.
    destruct (Eth.engine w) eqn:He'; [now contradiction He|..];
      apply isLocalBlock_logs.
Qed.

(** X9.  [SetEtherbase] is read back by [Etherbase]: after [SetEtherbase(a)]
    with [a] not the zero address, [Etherbase()] returns [a] and no error,
    whatever the state was (mining or not, any engine); the miner is handed
    [a], nothing else is called and no other field changes; and a block whose
    author is [a] is local from then on. *)
Theorem SetEtherbase_read_back (a : Eth.Address) (w : Eth.Ethereum)
        (config : Backend.Config) :
  a <> 0%Z ->
  exists w',
    Eth.SetEtherbase a w = Eth.Next tt w'
    /\ Eth.Etherbase w' = (a, None)
    /\ map snd (Eth.made w w') = [Eth.MinerSetEtherbase a]
    /\ Backend.isLocalBlock config (a, None) w' = ([], true)
    /\ Eth.set_etherbase (Eth.etherbase w) (Eth.set_calls (Eth.calls w) w') = w.
Proof.
  intros Ha. unfold Eth.SetEtherbase. run_body.
  eexists. split; [reflexivity|].
  split; [|split; [|split]].
  - unfold Eth.Etherbase. simpl.
    destruct (Z.eqb_spec a 0) as [H|H]; [contradiction|reflexivity].
  - erewrite made_app; [|simpl; reflexivity]. reflexivity.
  - unfold Backend.isLocalBlock. simpl. now rewrite Z.eqb_refl.
  - destruct w. reflexivity.
Qed.

Lemma SetEtherbase_read_back_witness :
  exists w',
    Eth.SetEtherbase 3735936751%Z (Eth.mining_node Eth.Clique 0%Z) = Eth.Next tt w'
    /\ Eth.Etherbase w' = (3735936751%Z, None)
    /\ map snd (Eth.made (Eth.mining_node Eth.Clique 0%Z) w')
       = [Eth.MinerSetEtherbase 3735936751%Z]
    /\ Backend.isLocalBlock Backend.sample_config (3735936751%Z, None) w'
       = ([], true)
    /\ Eth.set_etherbase (Eth.etherbase (Eth.mining_node Eth.Clique 0%Z))
         (Eth.set_calls (Eth.calls (Eth.mining_node Eth.Clique 0%Z)) w')
       = Eth.mining_node Eth.Clique 0%Z.
Proof.
  apply (@SetEtherbase_read_back 3735936751%Z (Eth.mining_node Eth.Clique 0%Z)
           Backend.sample_config).
  discriminate.
Defined.

Section StartMiningFacts.

Import Eth Backend.
Local Open Scope Z_scope.

(** [StartMining] against its table: it always returns, with the error and
    the calls of the table; it stores 1 in [acceptTxs] when it goes on to
    start the miner; it changes no other field but the log. *)
Lemma StartMining_start_trace (threads : Z) (w : Ethereum) :
  exists w',
    StartMining threads w = Ret (fst (start_trace threads w)) w'
    /\ calls w' = calls w ++ map (pair (now w)) (snd (start_trace threads w))
    /\ acceptTxs w'
       = (if negb (mining w)
          then match fst (start_trace threads w) with
               | None => 1
               | Some _ => acceptTxs w
               end
          else acceptTxs w)
    /\ set_logs (logs w) (set_calls (calls w) (set_acceptTxs (acceptTxs w) w')) = w.
Proof.
  unfold StartMining, start_trace, engine_threads. run_body.
  destruct w as [e au gp eb cbh cch th acc rep atx mi nw cs lg]. simpl.
  destruct th; simpl; (destruct mi; simpl;
    [ eexists; split; [reflexivity|]; simpl; rewrite ?app_nil_r; auto
    | destruct (eb =? 0) eqn:Hz; simpl;
      [ eexists; split; [reflexivity|]; simpl; rewrite <- ?app_assoc; auto
      | destruct au; simpl;
        [ eexists; split; [reflexivity|]; simpl; rewrite <- ?app_assoc; auto
        | destruct (acc eb) as [[wl|] [er|]] eqn:Hacc;
          destruct e as [|hc|[|hc'|inner'| |id']| |id]; simpl; rewrite ?Hacc; simpl;
          eexists; (split; [reflexivity|]); simpl; rewrite <- ?app_assoc; auto ]]]).
Qed.

(** The result of [StartMining] rests on the miner's state, the etherbase,
    the authorized flag, the engine and the wallet of the etherbase. *)
Lemma start_trace_result (n m : Z) (w1 w2 : Ethereum) :
  mining w2 = mining w1 -> etherbase w2 = etherbase w1 ->
  authorized w2 = authorized w1 -> engine w2 = engine w1 ->
  accounts w2 = accounts w1 ->
  fst (start_trace m w2) = fst (start_trace n w1).
Proof.
  intros Hm He Ha Hg Hc. unfold start_trace. rewrite Hm, He, Ha, Hg, Hc.
  destruct (mining w1); [reflexivity|].
  destruct (etherbase w1 =? 0); [reflexivity|].
  destruct (authorized w1 || negb (signer_capable (engine w1))); [reflexivity|].
  destruct (accounts w1 (etherbase w1)) as [[wl|] [er|]]; reflexivity.
Qed.

Lemma signer_capable_authorize_call (e : Engine) (eb : Address) (wl : Wallet) :
  signer_capable e = true -> exists c, authorize_call e eb wl = Some c.
Proof.
  destruct e as [|hc|[|hc'|inner'| |id']| |id]; simpl; try discriminate;
    intros _; eexists; reflexivity.
Qed.

End StartMiningFacts.

(** X10.  [StartMining] always returns: it never panics.  Whatever it
    returns, it leaves the engine, the authorized flag (also after it
    authorized the engine), the etherbase, the gas price, the channels and
    the clock as they were: it changes the calls made, the log, and
    [acceptTxs], which it leaves alone or sets to 1. *)
Theorem StartMining_frame (threads : Z) (w : Eth.Ethereum) :
  exists r w',
    Eth.StartMining threads w = Eth.Ret r w'
    /\ Eth.set_logs (Eth.logs w)
         (Eth.set_calls (Eth.calls w) (Eth.set_acceptTxs (Eth.acceptTxs w) w'))
       = w
    /\ (Eth.acceptTxs w' = Eth.acceptTxs w \/ Eth.acceptTxs w' = 1%Z)
    /\ (r <> None -> Eth.acceptTxs w' = Eth.acceptTxs w).
Proof.
  destruct (StartMining_start_trace threads w) as (w' & Hrun & _ & Hacc & Hframe).
  exists (fst (Backend.start_trace threads w)), w'.
  split; [exact Hrun|]. split; [exact Hframe|].
  rewrite Hacc.
  destruct (Eth.mining w); simpl; [split; auto|].
  destruct (fst (Backend.start_trace threads w)); split; auto.
  intros H. now contradiction H.
Qed.

(** X11.  While the miner is not running, [StartMining] returns nil exactly
    when an etherbase is configured and either the process is authorized, or
    the engine is none of clique, clique inside beacon and bor (bor or clique
    any deeper inside beacon count as none), or the account manager finds a
    wallet for the etherbase and returns no error with it. *)
Theorem StartMining_succeeds_iff (threads : Z) (w : Eth.Ethereum) :
  Eth.IsMining w = false ->
  (Eth.result (Eth.StartMining threads w) = Some None
   <-> Eth.etherbase w <> 0%Z
       /\ (Eth.authorized w = true
           \/ Eth.signer_capable (Eth.engine w) = false
           \/ exists wallet,
               Eth.accounts w (Eth.etherbase w) = (Some wallet, None))).
Proof.
  intros Hm. unfold Eth.IsMining in Hm.
  destruct (StartMining_start_trace threads w) as (w' & Hrun & _).
  rewrite Hrun. simpl. unfold Backend.start_trace. rewrite Hm.
  destruct (Z.eqb_spec (Eth.etherbase w) 0) as [Hz|Hz].
  - simpl. split; [discriminate|]. intros [H _]. contradiction.
  - destruct (Eth.authorized w) eqn:Ha; simpl.
    + split; [intros _; split; [exact Hz|now left]|reflexivity].
    + destruct (Eth.signer_capable (Eth.engine w)) eqn:Hs; simpl.
      * destruct (Eth.accounts w (Eth.etherbase w)) as [[wl|] [er|]]; simpl;
          (split;
           [ intros H;
             first [ discriminate H
                   | split; [exact Hz|right; right; eexists; reflexivity] ]
           | intros [_ [H|[H|[wl' H]]]];
             first [discriminate H|reflexivity] ]).
      * split; [intros _; split; [exact Hz|right; now left]|reflexivity].
Qed.

Lemma StartMining_succeeds_iff_witness :
  Eth.result (Eth.StartMining 1%Z (Backend.node_with_wallet (Eth.Bor (Some O)) 7%Z))
  = Some None
  <-> Eth.etherbase (Backend.node_with_wallet (Eth.Bor (Some O)) 7%Z) <> 0%Z
      /\ (Eth.authorized (Backend.node_with_wallet (Eth.Bor (Some O)) 7%Z) = true
          \/ Eth.signer_capable
               (Eth.engine (Backend.node_with_wallet (Eth.Bor (Some O)) 7%Z)) = false
          \/ exists wallet,
              Eth.accounts (Backend.node_with_wallet (Eth.Bor (Some O)) 7%Z)
                (Eth.etherbase (Backend.node_with_wallet (Eth.Bor (Some O)) 7%Z))
              = (Some wallet, None)).
Proof.
  apply (@StartMining_succeeds_iff 1%Z
           (Backend.node_with_wallet (Eth.Bor (Some O)) 7%Z)).
  reflexivity.
Defined.

(** X12.  When [StartMining] returns nil while the miner is not running, the
    node counts as synced afterwards ([acceptTxs] is 1); the miner is started
    once, as the last call; before it come the thread count (when the engine
    takes one), the gas price for the transaction pool and, unless the
    process is authorized or the engine takes no signer, the lookup of the
    etherbase's wallet followed by [Authorize] on the clique or bor engine
    with the etherbase and that wallet. *)
Theorem StartMining_starts_miner (threads : Z) (w : Eth.Ethereum) :
  Eth.IsMining w = false ->
  Eth.result (Eth.StartMining threads w) = Some None ->
  exists w' before,
    Eth.StartMining threads w = Eth.Ret None w'
    /\ Backend.Synced w' = true
    /\ map snd (Eth.made w w') = before ++ [Eth.GoMinerStart]
    /\ ~ In Eth.GoMinerStart before
    /\ before
       = (if Eth.threaded w then [Eth.SetThreads (Eth.engine_threads threads)] else [])
         ++ [Eth.TxPoolSetGasPrice (Eth.gasPrice w)]
         ++ (if Eth.authorized w then []
             else match Eth.accounts w (Eth.etherbase w) with
                  | (Some wallet, None) =>
                      match Backend.authorize_call (Eth.engine w)
                              (Eth.etherbase w) wallet with
                      | Some c => [Eth.AccountManagerFind (Eth.etherbase w); c]
                      | None => []
                      end
                  | _ => []
                  end).
Proof.
  intros Hm Hres. unfold Eth.IsMining in Hm.
  destruct (StartMining_start_trace threads w) as (w' & Hrun & Hcalls & Hacc & _).
  rewrite Hrun in Hres. simpl in Hres. injection Hres as Hres.
  rewrite Hres in Hrun, Hacc. rewrite Hm in Hacc. simpl in Hacc.
  exists w'.
  exists ((if Eth.threaded w then [Eth.SetThreads (Eth.engine_threads threads)] else [])
          ++ [Eth.TxPoolSetGasPrice (Eth.gasPrice w)]
          ++ (if Eth.authorized w then []
              else match Eth.accounts w (Eth.etherbase w) with
                   | (Some wallet, None) =>
                       match Backend.authorize_call (Eth.engine w)
                               (Eth.etherbase w) wallet with
                       | Some c => [Eth.AccountManagerFind (Eth.etherbase w); c]
                       | None => []
                       end
                   | _ => []
                   end)).
  split; [exact Hrun|].
  split; [unfold Backend.Synced; rewrite Hacc; reflexivity|].
  rewrite (@made_app _ _ _ Hcalls), map_map. simpl. rewrite map_id.
  clear Hrun Hcalls Hacc. revert Hres.
  unfold Backend.start_trace. rewrite Hm.
  destruct (Eth.etherbase w =? 0)%Z; [discriminate|].
  assert (Hth : ~ In Eth.GoMinerStart
                  (if Eth.threaded w
                   then [Eth.SetThreads (Eth.engine_threads threads)] else []))
    by (destruct (Eth.threaded w); simpl; intuition discriminate).
  destruct (Eth.authorized w) eqn:Ha; simpl.
  - intros _. split; [|split; [|reflexivity]].
    + now rewrite <- app_assoc.
    + rewrite in_app_iff. simpl. intuition discriminate.
  - destruct (Eth.signer_capable (Eth.engine w)) eqn:Hs; simpl.
    + destruct (Eth.accounts w (Eth.etherbase w)) as [[wl|] [er|]];
        try discriminate.
      destruct (signer_capable_authorize_call (Eth.engine w) (Eth.etherbase w) wl Hs)
        as (c & Hc).
      rewrite Hc. intros _. split; [|split; [|reflexivity]].
      * simpl. rewrite <- !app_assoc. reflexivity.
      * rewrite in_app_iff. simpl.
        assert (c <> Eth.GoMinerStart).
        { destruct (Eth.engine w) as [|hc|[|hc'|inner'| |id']| |id];
            simpl in Hc; try discriminate; injection Hc as <-; discriminate. }
        intuition (try discriminate; congruence).
    + assert (Hnone : forall wl, Backend.authorize_call (Eth.engine w)
                                   (Eth.etherbase w) wl = None).
      { intros wl. destruct (Eth.engine w) as [|hc|[|hc'|inner'| |id']| |id];
          simpl in Hs; try discriminate; reflexivity. }
      intros _.
      assert (Hauth : match Eth.accounts w (Eth.etherbase w) with
                      | (Some wallet, None) =>
                          match Backend.authorize_call (Eth.engine w)
                                  (Eth.etherbase w) wallet with
                          | Some c => [Eth.AccountManagerFind (Eth.etherbase w); c]
                          | None => []
                          end
                      | _ => []
                      end = []).
      { destruct (Eth.accounts w (Eth.etherbase w)) as [[wl|] [er|]];
          rewrite ?Hnone; reflexivity. }
      rewrite Hauth. split; [|split; [|reflexivity]].
      * now rewrite <- app_assoc.
      * rewrite in_app_iff. simpl. intuition discriminate.
Qed.

Lemma StartMining_starts_miner_witness :
  exists w' before,
    Eth.StartMining 1%Z (Backend.node_with_wallet (Eth.Bor (Some O)) 7%Z)
    = Eth.Ret None w'
    /\ Backend.Synced w' = true
    /\ map snd (Eth.made (Backend.node_with_wallet (Eth.Bor (Some O)) 7%Z) w')
       = before ++ [Eth.GoMinerStart]
    /\ ~ In Eth.GoMinerStart before
    /\ before
       = (if Eth.threaded (Backend.node_with_wallet (Eth.Bor (Some O)) 7%Z)
          then [Eth.SetThreads (Eth.engine_threads 1%Z)] else [])
         ++ [Eth.TxPoolSetGasPrice
               (Eth.gasPrice (Backend.node_with_wallet (Eth.Bor (Some O)) 7%Z))]
         ++ (if Eth.authorized (Backend.node_with_wallet (Eth.Bor (Some O)) 7%Z)
             then []
             else match Eth.accounts (Backend.node_with_wallet (Eth.Bor (Some O)) 7%Z)
                          (Eth.etherbase (Backend.node_with_wallet (Eth.Bor (Some O)) 7%Z))
                  with
                  | (Some wallet, None) =>
                      match Backend.authorize_call
                              (Eth.engine (Backend.node_with_wallet (Eth.Bor (Some O)) 7%Z))
                              (Eth.etherbase (Backend.node_with_wallet (Eth.Bor (Some O)) 7%Z))
                              wallet with
                      | Some c =>
                          [Eth.AccountManagerFind
                             (Eth.etherbase (Backend.node_with_wallet (Eth.Bor (Some O)) 7%Z));
                           c]
                      | None => []
                      end
                  | _ => []
                  end).
Proof.
  apply (@StartMining_starts_miner 1%Z
           (Backend.node_with_wallet (Eth.Bor (Some O)) 7%Z)); reflexivity.
Defined.

(** X13.  [StartMining] keeps no record of having started the miner: until
    the miner reports [Mining()], a second call gives the result of the
    first, and when that is nil the miner is started a second time. *)
Theorem StartMining_again (n m : Z) (w : Eth.Ethereum) :
  Eth.IsMining w = false ->
  Eth.result (Eth.StartMining m (Eth.final (Eth.StartMining n w)))
  = Eth.result (Eth.StartMining n w)
  /\ (Eth.result (Eth.StartMining n w) = Some None ->
      List.length
        (filter Backend.is_GoMinerStart
           (map snd (Eth.made w
                       (Eth.final (Eth.StartMining m
                                     (Eth.final (Eth.StartMining n w)))))))
      = 2%nat).
Proof.
  intros Hm. unfold Eth.IsMining in Hm.
  destruct (StartMining_start_trace n w) as (w1 & Hrun1 & Hcalls1 & _ & Hframe1).
  destruct (StartMining_start_trace m w1) as (w2 & Hrun2 & Hcalls2 & _ & _).
  rewrite Hrun1. cbn [Eth.final]. rewrite Hrun2. cbn [Eth.final Eth.result].
  assert (Hsame : Eth.mining w1 = Eth.mining w /\ Eth.etherbase w1 = Eth.etherbase w
                  /\ Eth.authorized w1 = Eth.authorized w
                  /\ Eth.engine w1 = Eth.engine w
                  /\ Eth.accounts w1 = Eth.accounts w
                  /\ Eth.threaded w1 = Eth.threaded w
                  /\ Eth.gasPrice w1 = Eth.gasPrice w).
  { pose proof (f_equal Eth.mining Hframe1).
    pose proof (f_equal Eth.etherbase Hframe1).
    pose proof (f_equal Eth.authorized Hframe1).
    pose proof (f_equal Eth.engine Hframe1).
    pose proof (f_equal Eth.accounts Hframe1).
    pose proof (f_equal Eth.threaded Hframe1).
    pose proof (f_equal Eth.gasPrice Hframe1).
    simpl in *. repeat split; assumption. }
  destruct Hsame as (H1 & H2 & H3 & H4 & H5 & H6 & H7).
  assert (Hres : fst (Backend.start_trace m w1) = fst (Backend.start_trace n w))
    by (apply start_trace_result; assumption).
  split; [now rewrite Hres|].
  intros Hok. injection Hok as Hok.
  assert (Hcount : forall k (v : Eth.Ethereum),
             Eth.mining v = false -> fst (Backend.start_trace k v) = None ->
             List.length
               (filter Backend.is_GoMinerStart (snd (Backend.start_trace k v)))
             = 1%nat).
  { intros k v Hv. unfold Backend.start_trace. rewrite Hv.
    destruct (Eth.etherbase v =? 0)%Z; [discriminate|].
    destruct (Eth.authorized v || negb (Eth.signer_capable (Eth.engine v))).
    - intros _. destruct (Eth.threaded v); reflexivity.
    - destruct (Eth.accounts v (Eth.etherbase v)) as [[wl|] [er|]];
        try discriminate.
      intros _.
      destruct (Eth.threaded v);
        destruct (Eth.engine v) as [|hc|[|hc'|inner'| |id']| |id]; reflexivity. }
  erewrite made_app; [|rewrite Hcalls2, Hcalls1, <- app_assoc; reflexivity].
  rewrite map_app, !map_map. simpl. rewrite !map_id.
  rewrite filter_app, length_app.
  rewrite (Hcount n w Hm Hok).
  rewrite (Hcount m w1); [reflexivity|now rewrite H1|now rewrite Hres].
Qed.

Lemma StartMining_again_witness :
  Eth.result
    (Eth.StartMining 2%Z
       (Eth.final (Eth.StartMining 1%Z
                     (Backend.node_with_wallet (Eth.Bor (Some O)) 7%Z))))
  = Eth.result (Eth.StartMining 1%Z (Backend.node_with_wallet (Eth.Bor (Some O)) 7%Z))
  /\ (Eth.result (Eth.StartMining 1%Z (Backend.node_with_wallet (Eth.Bor (Some O)) 7%Z))
      = Some None ->
      List.length
        (filter Backend.is_GoMinerStart
           (map snd
              (Eth.made (Backend.node_with_wallet (Eth.Bor (Some O)) 7%Z)
                 (Eth.final
                    (Eth.StartMining 2%Z
                       (Eth.final
                          (Eth.StartMining 1%Z
                             (Backend.node_with_wallet (Eth.Bor (Some O)) 7%Z))))))))
      = 2%nat).
Proof.
  apply (@StartMining_again 1%Z 2%Z
           (Backend.node_with_wallet (Eth.Bor (Some O)) 7%Z)).
  reflexivity.
Defined.

Section ArrayFacts.

Import Eth Backend.
Local Open Scope Z_scope.

(** The installation loop on arrays of any lengths: it installs the pairs
    both arrays hold, in order, and panics at the first index the hashes
    lack. *)
Lemma for_range_installs_any (R : Type) (nums : list Z) :
  forall (hashes pre_n pre_h : list Z) (w : Ethereum),
    List.length pre_n = List.length pre_h ->
    for_range (R := R) (List.length nums) (List.length pre_n)
      (fun i =>
         match nth_error (pre_n ++ nums) i, nth_error (pre_h ++ hashes) i with
         | Some n, Some h => call (ProcessCheckpoint n h) ;; skip
         | _, _ => panic
         end) w
    = (if (List.length nums <=? List.length hashes)%nat
       then Next tt else Panic (R := R) (A := unit))
        (set_calls (calls w ++ installs (now w) nums hashes) w).
Proof.
  induction nums as [|n nums IH]; intros hashes pre_n pre_h w Hpre.
  - simpl. unfold skip, installs. simpl. now rewrite app_nil_r, set_calls_same.
  - destruct hashes as [|h hashes].
    + simpl for_range. unfold bind at 1. rewrite nth_error_middle.
      assert (Hnone : nth_error (pre_h ++ []) (List.length pre_n) = None).
      { apply nth_error_None. rewrite app_nil_r, Hpre. apply Nat.le_refl. }
      rewrite Hnone. unfold panic, installs. simpl.
      now rewrite app_nil_r, set_calls_same.
    + simpl for_range. unfold bind at 1.
      rewrite nth_error_middle.
      replace (nth_error (pre_h ++ h :: hashes) (List.length pre_n)) with (Some h)
        by (rewrite Hpre; symmetry; apply nth_error_middle).
      rewrite call_skip.
      specialize (IH hashes (pre_n ++ [n]) (pre_h ++ [h])).
      rewrite <- !app_assoc in IH. simpl in IH.
      rewrite !length_app in IH. simpl in IH.
      rewrite !Nat.add_1_r in IH.
      rewrite IH by (now rewrite Hpre).
      simpl. unfold installs. simpl. rewrite <- app_assoc. reflexivity.
Qed.

End ArrayFacts.

(** X14.  [handleWhitelistCheckpoint] indexes the hashes by the block
    numbers' indices: when the fetch returns fewer hashes than block numbers
    it installs the pairs that exist, in order, and then panics (index out
    of range); when it returns at least as many hashes as block numbers, and
    a block number at all, it installs one pair per block number, ignores
    the hashes beyond, and returns nil. *)
Theorem handleWhitelistCheckpoint_array_lengths (ctx : Z) (first : bool)
        (a : Eth.FetchResult) (w : Eth.Ethereum) (hc : nat) :
  Eth.engine w = Eth.Bor (Some hc) ->
  Eth.blockNums a <> [] ->
  exists w',
    Eth.handleWhitelistCheckpoint ctx first a w
    = (if (List.length (Eth.blockNums a) <=? List.length (Eth.blockHashes a))%nat
       then Eth.Ret None w' else Eth.Panic w')
    /\ map snd (Eth.made w w')
       = Eth.FetchWhitelistCheckpoints ctx first
         :: map (fun p => Eth.ProcessCheckpoint (fst p) (snd p))
                (combine (Eth.blockNums a) (Eth.blockHashes a))
    /\ List.length (combine (Eth.blockNums a) (Eth.blockHashes a))
       = Nat.min (List.length (Eth.blockNums a)) (List.length (Eth.blockHashes a)).
Proof.
  intros He Hne. unfold Eth.handleWhitelistCheckpoint.
  unfold Eth.bind at 1. unfold Eth.gets at 1. rewrite He.
  unfold Eth.bind at 1.
  unfold Eth.fetchWhitelistCheckpoints, Eth.bind, Eth.call, Eth.gets. simpl.
  destruct (Eth.blockNums a) as [|n nums] eqn:Hn; [now contradiction Hne|].
  simpl Nat.eqb. unfold Eth.when, Eth.skip.
  pose proof (@for_range_installs_any (option Eth.error) (n :: nums)
                (Eth.blockHashes a) [] []) as H.
  simpl List.length in H. simpl app in H.
  rewrite H by reflexivity. clear H.
  destruct (Eth.blockHashes a) as [|h hashes]; simpl.
  - eexists. split; [reflexivity|]. split; [|reflexivity].
    erewrite made_app; [|simpl; rewrite <- app_assoc; reflexivity]. reflexivity.
  - cbn [List.length Nat.leb]. unfold Eth.Hash in *.
    destruct (List.length nums <=? List.length hashes)%nat;
      unfold Eth.ret; simpl;
      (eexists; split; [reflexivity|]; split;
       [ erewrite made_app; [|simpl; rewrite <- app_assoc; reflexivity];
         simpl; unfold Eth.installs; rewrite !map_map; reflexivity
       | now rewrite length_combine ]).
Qed.

Lemma handleWhitelistCheckpoint_array_lengths_witness :
  exists w',
    Eth.handleWhitelistCheckpoint 30000000000 false
      {| Eth.blockNums := [100; 200]%Z; Eth.blockHashes := [4660]%Z;
         Eth.fetchErr := None; Eth.took := 1%Z |}
      (Eth.node (Eth.Bor (Some O)) 1%Z)
    = (if (List.length [100; 200]%Z <=? List.length [4660]%Z)%nat
       then Eth.Ret None w' else Eth.Panic w')
    /\ map snd (Eth.made (Eth.node (Eth.Bor (Some O)) 1%Z) w')
       = Eth.FetchWhitelistCheckpoints 30000000000 false
         :: map (fun p => Eth.ProcessCheckpoint (fst p) (snd p))
                (combine [100; 200]%Z [4660]%Z)
    /\ List.length (combine [100; 200]%Z [4660]%Z)
       = Nat.min (List.length [100; 200]%Z) (List.length [4660]%Z).
Proof.
  apply (@handleWhitelistCheckpoint_array_lengths 30000000000 false
           {| Eth.blockNums := [100; 200]%Z; Eth.blockHashes := [4660]%Z;
              Eth.fetchErr := None; Eth.took := 1%Z |}
           (Eth.node (Eth.Bor (Some O)) 1%Z) O).
  - reflexivity.
  - discriminate.
Defined.

(** X15.  [Stop] cannot be called twice: after a first [Stop] a second one
    closes the dial and discovery iterators, stops the handler and closes
    the bloom indexer once more, and then panics on closing the closed
    [closeBloomHandler]; it gets to none of the later steps. *)
Theorem Stop_twice_panics (w : Eth.Ethereum) :
  Eth.closeBloomHandler w = false ->
  Eth.closeCh w = false ->
  exists w2,
    Eth.Stop (Eth.final (Eth.Stop w)) = Eth.Panic w2
    /\ map snd (Eth.made (Eth.final (Eth.Stop w)) w2)
       = [ Eth.EthDialCandidatesClose; Eth.SnapDialCandidatesClose;
           Eth.HandlerStop; Eth.BloomIndexerClose ].
Proof.
  intros Hb Hc. unfold Eth.Stop. run_body. rewrite Hb. simpl. rewrite Hc. simpl.
  eexists. split; [reflexivity|].
  erewrite made_app; [|simpl; rewrite <- !app_assoc; reflexivity].
  reflexivity.
Qed.

Lemma Stop_twice_panics_witness :
  exists w2,
    Eth.Stop (Eth.final (Eth.Stop (Eth.node Eth.Clique 1%Z))) = Eth.Panic w2
    /\ map snd (Eth.made (Eth.final (Eth.Stop (Eth.node Eth.Clique 1%Z))) w2)
       = [ Eth.EthDialCandidatesClose; Eth.SnapDialCandidatesClose;
           Eth.HandlerStop; Eth.BloomIndexerClose ].
Proof.
  apply (Stop_twice_panics (Eth.node Eth.Clique 1%Z)); reflexivity.
Defined.

(** X16.  A whitelist goroutine started after [Stop] does nothing: it finds
    [closeCh] closed, returns at once and leaves the state as [Stop] left
    it, whatever the engine and the schedule. *)
Theorem service_after_Stop (s : Eth.Schedule) (w : Eth.Ethereum) :
  Eth.closeBloomHandler w = false ->
  Eth.closeCh w = false ->
  Eth.startCheckpointWhitelistService s (Eth.final (Eth.Stop w))
  = Eth.Ret tt (Eth.final (Eth.Stop w)).
Proof.
  intros Hb Hc. unfold Eth.Stop. run_body. rewrite Hb. simpl. rewrite Hc. simpl.
  unfold Eth.startCheckpointWhitelistService, Eth.closed_now. run_body.
  reflexivity.
Qed.

Lemma service_after_Stop_witness :
  Eth.startCheckpointWhitelistService Eth.sample_schedule
    (Eth.final (Eth.Stop (Eth.node (Eth.Bor (Some O)) 1%Z)))
  = Eth.Ret tt (Eth.final (Eth.Stop (Eth.node (Eth.Bor (Some O)) 1%Z))).
Proof.
  apply (service_after_Stop Eth.sample_schedule (Eth.node (Eth.Bor (Some O)) 1%Z));
    reflexivity.
Defined.

Section ServiceLogFacts.

Import Eth Backend.
Local Open Scope Z_scope.

Lemma count_cycles_app (l1 l2 : list (Z * Call)) :
  count_cycles (l1 ++ l2) = (count_cycles l1 + count_cycles l2)%nat.
Proof.
  induction l1 as [|[t c] l1 IH]; [reflexivity|].
  simpl. destruct c; simpl; rewrite IH; reflexivity.
Qed.

Lemma count_cycles_installs (t : Z) (nums hashes : list Z) :
  count_cycles (installs t nums hashes) = O.
Proof.
  unfold installs. induction (combine nums hashes) as [|p l IH]; [reflexivity|].
  exact IH.
Qed.

Lemma count_cycles_cycle_calls (first : bool) (a : FetchResult) (t : Z) :
  count_cycles (cycle_calls first a t) = 1%nat.
Proof.
  unfold cycle_calls. simpl. rewrite count_cycles_app, count_cycles_installs.
  reflexivity.
Qed.

Lemma set_now_same (w : Ethereum) : set_now (now w) w = w.
Proof. now destruct w. Qed.

(** A [select] moves the clock and nothing else. *)
Lemma select_moves_clock (closeAt : option Z) (T : Z) (p : bool) (w : Ethereum) :
  exists c t, select (R := unit) closeAt T p w = Next c (set_now t w).
Proof.
  unfold select.
  destruct ((T <=? now w) || closed_now closeAt w).
  - eexists. exists (now w). now rewrite set_now_same.
  - eexists. eexists. reflexivity.
Qed.

(** The loop, whatever the instants: it ends waiting or returns, never in a
    panic; it logs one warning for each cycle that ended in an error. *)
Lemma whitelistLoop_logs (closeAt : option Z) (hc : nat) (turns : list Turn) :
  forall (T : Z) (w : Ethereum),
    engine w = Bor (Some hc) ->
    Forall (fun t => List.length (blockNums (answer t))
                     = List.length (blockHashes (answer t))) turns ->
    exists (k : nat) (w' : Ethereum),
      (whitelistLoop closeAt T turns w = Ret tt w'
       \/ whitelistLoop closeAt T turns w = Blocked w')
      /\ (k <= List.length turns)%nat
      /\ logs w' = logs w
                   ++ flat_map (fun t => cycle_warning false (answer t))
                        (firstn k turns)
      /\ count_cycles (calls w') = (count_cycles (calls w) + k)%nat.
Proof.
  induction turns as [|turn rest IH]; intros T w He Hlen.
  - exists O, w. split; [now right|]. split; [apply Nat.le_refl|].
    simpl. now rewrite app_nil_r, Nat.add_0_r.
  - inversion Hlen as [|? ? Hturn Hrest]; subst.
    destruct (select_moves_clock closeAt T (preferTick turn) w) as (c & t & Hsel).
    destruct c.
    + assert (Hstep : exists w3,
                 whitelistLoop closeAt T (turn :: rest) w
                 = whitelistLoop closeAt (tick_after T t) rest w3
                 /\ engine w3 = engine w
                 /\ logs w3 = logs w ++ cycle_warning false (answer turn)
                 /\ calls w3 = calls w ++ cycle_calls false (answer turn) t).
      { simpl whitelistLoop. unfold bind at 1. rewrite Hsel.
        unfold bind at 1. unfold gets at 1. simpl now.
        unfold bind at 1.
        erewrite cycle_bor; [|exact He|exact Hturn].
        fold (cycle_error (answer turn)). unfold cycle_warning.
        destruct (cycle_error (answer turn)) as [e|];
          unfold bind, log, skip; eexists; (split; [reflexivity|]); simpl;
          rewrite ?app_nil_r; repeat split; reflexivity. }
      destruct Hstep as (w3 & Hstep & He3 & Hlogs3 & Hcalls3).
      rewrite Hstep.
      destruct (IH (tick_after T t) w3) as (k & w' & Hrun & Hk & Hlogs & Hcount).
      * now rewrite He3.
      * exact Hrest.
      * exists (S k), w'. split; [exact Hrun|]. split; [simpl; lia|].
        split.
        -- rewrite Hlogs, Hlogs3. simpl. now rewrite <- app_assoc.
        -- rewrite Hcount, Hcalls3, count_cycles_app, count_cycles_cycle_calls.
           lia.
    + assert (Hstep : whitelistLoop closeAt T (turn :: rest) w
                      = Ret tt (set_now t w)).
      { simpl whitelistLoop. unfold bind at 1. now rewrite Hsel. }
      rewrite Hstep.
      exists O. eexists. split; [left; reflexivity|]. split; [simpl; lia|].
      simpl. now rewrite app_nil_r, Nat.add_0_r.
Qed.

(** The service up to its loop, with what it logged. *)
Lemma service_logs_to_loop (s : Schedule) (w : Ethereum) (hc : nat) :
  closed_now (closeAt s) w = false ->
  engine w = Bor (Some hc) ->
  List.length (blockNums (firstAnswer s)) = List.length (blockHashes (firstAnswer s)) ->
  permanent (cycle_error (firstAnswer s)) = false ->
  exists w1,
    startCheckpointWhitelistService s w
    = defer TickerStop
        (whitelistLoop (closeAt s)
           (now w + took (firstAnswer s) + tickerPeriod) (turns s)) w1
    /\ engine w1 = engine w
    /\ logs w1 = logs w ++ cycle_warning true (firstAnswer s)
    /\ count_cycles (calls w1) = (count_cycles (calls w) + 1)%nat.
Proof.
  intros Hclosed He Hlen Hperm.
  unfold startCheckpointWhitelistService.
  unfold bind at 1. unfold gets at 1. rewrite Hclosed.
  unfold bind at 1. unfold when at 1. unfold skip at 1.
  unfold bind at 1.
  erewrite cycle_bor; [|exact He|exact Hlen].
  fold (cycle_error (firstAnswer s)). unfold cycle_warning.
  destruct (cycle_error (firstAnswer s)) as [e|] eqn:Herr.
  - simpl in Hperm. unfold bind at 1. unfold bind at 1. rewrite Hperm.
    unfold when, skip, log. unfold bind at 1. unfold call.
    unfold defer, bind, gets. simpl.
    eexists. split; [reflexivity|]. simpl.
    split; [reflexivity|]. split; [reflexivity|].
    rewrite !count_cycles_app, count_cycles_cycle_calls. simpl. lia.
  - unfold bind at 1. unfold skip at 1. unfold bind at 1. unfold call.
    unfold defer, bind, gets. simpl.
    eexists. split; [reflexivity|]. simpl.
    split; [reflexivity|]. split; [now rewrite app_nil_r|].
    rewrite !count_cycles_app, count_cycles_cycle_calls. simpl. lia.
Qed.

End ServiceLogFacts.

(** X17.  What the whitelist service logs, whatever the instants of the
    ticks and of the shutdown: on a bor engine with a Heimdall client, with
    parallel arrays from every fetch and a first cycle that does not end in
    a capability error, the service does not panic, and after its [k+1]
    cycles the log holds one warning for each cycle that ended in an error,
    in order, the first cycle's under the first-run message, and nothing
    else; a cycle ends in an error only when its fetch returned an error and
    no record, so an error that came with records is not logged. *)
Theorem service_logs_failed_cycles (s : Eth.Schedule) (w : Eth.Ethereum)
        (hc : nat) :
  Eth.closed_now (Eth.closeAt s) w = false ->
  Eth.engine w = Eth.Bor (Some hc) ->
  List.length (Eth.blockNums (Eth.firstAnswer s))
  = List.length (Eth.blockHashes (Eth.firstAnswer s)) ->
  Forall (fun t => List.length (Eth.blockNums (Eth.answer t))
                   = List.length (Eth.blockHashes (Eth.answer t))) (Eth.turns s) ->
  Eth.permanent (Eth.cycle_error (Eth.firstAnswer s)) = false ->
  exists (k : nat) (w' : Eth.Ethereum),
    (Eth.startCheckpointWhitelistService s w = Eth.Ret tt w'
     \/ Eth.startCheckpointWhitelistService s w = Eth.Blocked w')
    /\ (k <= List.length (Eth.turns s))%nat
    /\ Backend.count_cycles (Eth.calls w')
       = (Backend.count_cycles (Eth.calls w) + S k)%nat
    /\ Eth.logs w'
       = Eth.logs w
         ++ Backend.cycle_warning true (Eth.firstAnswer s)
         ++ flat_map (fun t => Backend.cycle_warning false (Eth.answer t))
              (firstn k (Eth.turns s))
    /\ (forall first a,
           Eth.blockNums a <> [] -> Backend.cycle_warning first a = []).
Proof.
  intros Hclosed He Hlen Hturns Hperm.
  destruct (@service_logs_to_loop s w hc Hclosed He Hlen Hperm)
    as (w1 & Hrun & He1 & Hlogs1 & Hcount1).
  destruct (@whitelistLoop_logs (Eth.closeAt s) hc (Eth.turns s)
              (Eth.now w + Eth.took (Eth.firstAnswer s) + Eth.tickerPeriod)%Z w1)
    as (k & w' & Hloop & Hk & Hlogs & Hcount).
  - now rewrite He1.
  - exact Hturns.
  - exists k.
    assert (Hwarn : forall first a,
               Eth.blockNums a <> [] -> Backend.cycle_warning first a = []).
    { intros first a Hne. unfold Backend.cycle_warning, Eth.cycle_error.
      destruct (Eth.blockNums a); [now contradiction Hne|reflexivity]. }
    destruct Hloop as [Hloop|Hloop].
    + eexists. split; [left; rewrite Hrun; unfold Eth.defer; rewrite Hloop; reflexivity|].
      split; [exact Hk|]. simpl. split; [|split; [|exact Hwarn]].
      * rewrite count_cycles_app, Hcount, Hcount1. simpl. lia.
      * rewrite Hlogs, Hlogs1. now rewrite <- app_assoc.
    + exists w'. split; [right; rewrite Hrun; unfold Eth.defer; rewrite Hloop; reflexivity|].
      split; [exact Hk|]. split; [|split; [|exact Hwarn]].
      * rewrite Hcount, Hcount1. lia.
      * rewrite Hlogs, Hlogs1. now rewrite <- app_assoc.
Qed.

Lemma service_logs_failed_cycles_witness :
  let s := Eth.sample_schedule in
  let w := Eth.node (Eth.Bor (Some O)) 1%Z in
  exists (k : nat) (w' : Eth.Ethereum),
    (Eth.startCheckpointWhitelistService s w = Eth.Ret tt w'
     \/ Eth.startCheckpointWhitelistService s w = Eth.Blocked w')
    /\ (k <= List.length (Eth.turns s))%nat
    /\ Backend.count_cycles (Eth.calls w')
       = (Backend.count_cycles (Eth.calls w) + S k)%nat
    /\ Eth.logs w'
       = Eth.logs w
         ++ Backend.cycle_warning true (Eth.firstAnswer s)
         ++ flat_map (fun t => Backend.cycle_warning false (Eth.answer t))
              (firstn k (Eth.turns s))
    /\ (forall first a,
           Eth.blockNums a <> [] -> Backend.cycle_warning first a = []).
Proof.
  intros s w.
  refine (@service_logs_failed_cycles s w O _ _ _ _ _).
  - reflexivity.
  - reflexivity.
  - reflexivity.
  - subst s. unfold Eth.sample_schedule. cbn [Eth.turns].
    repeat (apply Forall_cons; [reflexivity|]). apply Forall_nil.
  - reflexivity.
Defined.

(** X18.  The service tells the capability errors by [errors.Is]: when the
    first fetch on a bor engine with a Heimdall client returns no record and
    an error that is, or wraps, [ErrNotBorConsensus] or
    [ErrBorConsensusWithoutHeimdall], the goroutine returns after that one
    cycle: it creates no ticker and logs nothing. *)
Theorem service_gives_up_on_wrapped_error (s : Eth.Schedule) (w : Eth.Ethereum)
        (hc : nat) :
  Eth.closed_now (Eth.closeAt s) w = false ->
  Eth.engine w = Eth.Bor (Some hc) ->
  List.length (Eth.blockNums (Eth.firstAnswer s))
  = List.length (Eth.blockHashes (Eth.firstAnswer s)) ->
  Eth.permanent (Eth.cycle_error (Eth.firstAnswer s)) = true ->
  exists w',
    Eth.startCheckpointWhitelistService s w = Eth.Ret tt w'
    /\ Eth.made w w' = Eth.cycle_calls true (Eth.firstAnswer s) (Eth.now w)
    /\ Eth.blockNums (Eth.firstAnswer s) = []
    /\ Eth.logs w' = Eth.logs w.
Proof.
  intros Hclosed He Hlen Hperm.
  unfold Eth.startCheckpointWhitelistService.
  unfold Eth.bind at 1. unfold Eth.gets at 1. rewrite Hclosed.
  unfold Eth.bind at 1. unfold Eth.when at 1. unfold Eth.skip at 1.
  unfold Eth.bind at 1.
  erewrite cycle_bor; [|exact He|exact Hlen].
  fold (Eth.cycle_error (Eth.firstAnswer s)).
  assert (Hnil : Eth.blockNums (Eth.firstAnswer s) = []).
  { unfold Eth.cycle_error in Hperm.
    destruct (Eth.blockNums (Eth.firstAnswer s)); [reflexivity|discriminate]. }
  destruct (Eth.cycle_error (Eth.firstAnswer s)) as [e|]; [|discriminate].
  simpl in Hperm. unfold Eth.bind at 1. unfold Eth.bind at 1. rewrite Hperm.
  unfold Eth.when, Eth.ret.
  eexists. split; [reflexivity|]. split; [|split; [exact Hnil|reflexivity]].
  apply made_app. reflexivity.
Qed.

Lemma service_gives_up_on_wrapped_error_witness :
  let s := {| Eth.closeAt := None;
              Eth.firstAnswer :=
                {| Eth.blockNums := []; Eth.blockHashes := [];
                   Eth.fetchErr := Some (Eth.ErrWrapped 1 Eth.ErrNotBorConsensus);
                   Eth.took := Eth.Second |};
              Eth.turns := Eth.turns Eth.sample_schedule |} in
  let w := Eth.node (Eth.Bor (Some O)) 1%Z in
  exists w',
    Eth.startCheckpointWhitelistService s w = Eth.Ret tt w'
    /\ Eth.made w w' = Eth.cycle_calls true (Eth.firstAnswer s) (Eth.now w)
    /\ Eth.blockNums (Eth.firstAnswer s) = []
    /\ Eth.logs w' = Eth.logs w.
Proof.
  intros s w.
  refine (@service_gives_up_on_wrapped_error s w O _ _ _ _); reflexivity.
Defined.
